(** * The labelled-transition-system model of [compatibility_lib/graph.py]

    A shallow embedding of the three classes of the module, [Transition],
    [State] and [Graph], and the properties of their constructors, mutators
    and queries.

    Conventions of the embedding:
    - a Python [str] is a [string], a Python [list] a Rocq [list];
    - an argument or a result that may be [None] is an [option];
    - a method that can raise returns a [result]; a method that mutates its
      receiver returns the outcome together with the receiver afterwards,
      so that "raises and leaves the object as it was" can be stated;
    - calls to [logger] and [print] leave no trace in the model;
    - the two lists of a [State] and the list of a [Graph] are values of
      their own: a state built from one list object passed for both
      arguments, whose two lists then grow together, is outside the model,
      and a property below says that a call which appends to one list
      leaves the other exactly as it was only for a list the constructor
      made itself. *)

From Stdlib Require Import Ascii.
From stdpp Require Import base decidable option list strings relations.

Local Open Scope stdpp_scope.

(** ** Exceptions and results *)

(** The two exceptions the module can raise: the explicit
    [raise Exception(msg)] of the constructors and of
    [add_outgoing_transition], and the [IndexError] of a subscript out of
    range. *)
Inductive exn : Type :=
  | Exception (msg : string)
  | IndexError.

Inductive result (A : Type) : Type :=
  | Ok (a : A)
  | Raise (e : exn).

Arguments Ok {A} a.
Arguments Raise {A} e.

#[global] Instance exn_eq_dec : EqDecision exn.
Proof. solve_decision. Defined.

#[global] Instance result_eq_dec `{EqDecision A} : EqDecision (result A).
Proof. solve_decision. Defined.

#[global] Instance result_ret : MRet result := λ A a, Ok a.

#[global] Instance result_bind : MBind result := λ A B f m,
  match m with
  | Ok a => f a
  | Raise e => Raise e
  end.

Definition raises {A} (m : result A) : Prop := ∃ e, m = Raise e.
Definition returns {A} (m : result A) : Prop := ∃ a, m = Ok a.

(** A method with a receiver of type [S] that it may mutate. *)
Definition method (S A : Type) : Type := S → result A * S.

(** ** The string and list primitives of Python the module uses *)

Module Py.

(** [needle in hay] on [str]: [needle] occurs in [hay] as a substring. *)
Fixpoint str_in (needle hay : string) : bool :=
  String.prefix needle hay ||
  match hay with
  | EmptyString => false
  | String _ rest => str_in needle rest
  end.

(** [s.split(sep)] for a separator of one character: the pieces between
    the occurrences of [sep], one more piece than occurrences. *)
Fixpoint split (sep : ascii) (s : string) : list string :=
  match s with
  | EmptyString => [EmptyString]
  | String c rest =>
      if decide (c = sep) then EmptyString :: split sep rest
      else match split sep rest with
           | piece :: pieces => String c piece :: pieces
           | [] => [String c EmptyString]
           end
  end.

(** [l[i]] for [i >= 0]: [IndexError] out of range. *)
Definition subscript {A} (l : list A) (i : nat) : result A :=
  match l !! i with
  | Some a => Ok a
  | None => Raise IndexError
  end.

(** The truth value of a list: non-empty. *)
Definition truthy {A} (l : list A) : bool :=
  match l with
  | [] => false
  | _ :: _ => true
  end.

(** [sep.join(pieces)], the inverse of [split]. *)
Fixpoint join (sep : ascii) (pieces : list string) : string :=
  match pieces with
  | [] => EmptyString
  | [piece] => piece
  | piece :: rest => piece +:+ String sep (join sep rest)
  end.

End Py.

(** ** Enumerations *)

Inductive TransitionType : Type := TAU | EMISSION | RECEPTION.
Inductive StateType : Type := INIT | FINAL | NORMAL.

#[global] Instance TransitionType_eq_dec : EqDecision TransitionType.
Proof. solve_decision. Defined.

#[global] Instance StateType_eq_dec : EqDecision StateType.
Proof. solve_decision. Defined.

(** ** class Transition *)

Module Transition.

Record t : Type := mk {
  name : string;
  type : TransitionType;
  next_state : string;
  params : list string
}.

#[global] Instance transition_eq_dec : EqDecision t.
Proof. solve_decision. Defined.

(** [Transition(name, type, next_state, params)]: the four attributes are
    stored, then a TAU transition with a non-empty [params] is refused. *)
Definition __init__ (name : string) (type : TransitionType)
    (next_state : string) (params : list string) : result t :=
  let self := mk name type next_state params in
  if bool_decide (Transition.type self = TAU) && Py.truthy params
  then Raise (Exception "Illegal transition. tau has no parameters list")
  else Ok self.

(** [param.split(":")[1]] *)
Definition split_1 (param : string) : result string :=
  Py.subscript (Py.split ":" param) 1.

(** The [for] loop of [get_param_type]; [data_type] is the local variable
    of that name. There is no [break]: every matching token assigns. *)
Fixpoint get_param_type_loop (param_name : string) (params : list string)
    (data_type : option string) : result (option string) :=
  match params with
  | [] => Ok data_type
  | param :: rest =>
      if Py.str_in param_name param then
        ty ← split_1 param;
        get_param_type_loop param_name rest (Some ty)
      else get_param_type_loop param_name rest data_type
  end.

Definition get_param_type (self : t) (param_name : string)
    : result (option string) :=
  let data_type := None in
  if Py.truthy (params self)
  then get_param_type_loop param_name (params self) data_type
  else Ok data_type.

(** The [for] loop of [get_data_types]; [data_types] is the list it
    appends to. *)
Fixpoint get_data_types_loop (params : list string)
    (data_types : list string) : result (list string) :=
  match params with
  | [] => Ok data_types
  | param :: rest =>
      ty ← split_1 param;
      if bool_decide (ty ∉ data_types) then
        ty' ← split_1 param;
        get_data_types_loop rest (data_types ++ [ty'])
      else get_data_types_loop rest data_types
  end.

Definition get_data_types (self : t) : result (list string) :=
  let data_types := [] in
  if Py.truthy (params self)
  then get_data_types_loop (params self) data_types
  else Ok data_types.

End Transition.

(** ** class State *)

Module State.

Record t : Type := mk {
  _name : string;
  _type : StateType;
  _incoming : list Transition.t;
  _outgoing : list Transition.t
}.

#[global] Instance state_eq_dec : EqDecision t.
Proof. solve_decision. Defined.

(** [State(name, type, incoming, outgoing)]; the two lists default to
    [None], which stands for a fresh empty list. *)
Definition __init__ (name : string) (type : StateType)
    (incoming outgoing : option (list Transition.t)) : result t :=
  let incoming' := match incoming with None => [] | Some l => l end in
  let outgoing' := match outgoing with None => [] | Some l => l end in
  let self := mk name type incoming' outgoing' in
  if bool_decide (_type self = INIT) && bool_decide (_incoming self ≠ [])
  then Raise (Exception "Initial state does not have incoming transition")
  else if bool_decide (_type self = FINAL) && bool_decide (_outgoing self ≠ [])
  then Raise (Exception "Final state does not have outgoing transition")
  else Ok self.

Definition add_incoming_transition (transition : option Transition.t)
    : method t unit := λ self,
  match transition with
  | None => (Ok (), self)
  | Some tr =>
      (Ok (), mk (_name self) (_type self) (_incoming self ++ [tr])
                 (_outgoing self))
  end.

Definition add_outgoing_transition (transition : option Transition.t)
    : method t unit := λ self,
  match transition with
  | None => (Ok (), self)
  | Some tr =>
      if bool_decide (_type self = FINAL)
      then (Raise (Exception "Final state does not have outgoing transition"),
            self)
      else (Ok (), mk (_name self) (_type self) (_incoming self)
                      (_outgoing self ++ [tr]))
  end.

(** The [for ... break] loop of the two lookups by name: [ret_transition]
    starts as [None] and takes the first transition named [name]. *)
Fixpoint lookup_loop (name : string) (transitions : list Transition.t)
    : option Transition.t :=
  match transitions with
  | [] => None
  | transition :: rest =>
      if bool_decide (name = Transition.name transition)
      then Some transition
      else lookup_loop name rest
  end.

Definition get_incoming_transtition (self : t) (name : string)
    : result (option Transition.t) :=
  if bool_decide (_type self ≠ INIT)
  then Ok (lookup_loop name (_incoming self))
  else Ok None.

Definition get_outgoing_transtition (self : t) (name : string)
    : result (option Transition.t) :=
  if bool_decide (_type self ≠ FINAL)
  then Ok (lookup_loop name (_outgoing self))
  else Ok None.

Definition get_incoming_transitions_list (self : t) : list Transition.t :=
  _incoming self.

Definition get_outgoing_transitions_list (self : t) : list Transition.t :=
  _outgoing self.

(** The loop shared by the four classification queries: append to [acc]
    every transition of the given type, in the order of the list. *)
Fixpoint collect_loop (type : TransitionType) (transitions : list Transition.t)
    (acc : list Transition.t) : list Transition.t :=
  match transitions with
  | [] => acc
  | transition :: rest =>
      if bool_decide (Transition.type transition = type)
      then collect_loop type rest (acc ++ [transition])
      else collect_loop type rest acc
  end.

Definition get_outgoing_emission_list (self : t) : list Transition.t :=
  collect_loop EMISSION (_outgoing self) [].

Definition get_outgoing_reception_list (self : t) : list Transition.t :=
  collect_loop RECEPTION (_outgoing self) [].

Definition get_outgoing_tau_list (self : t) : list Transition.t :=
  collect_loop TAU (_outgoing self) [].

Definition get_imcoming_tau_list (self : t) : list Transition.t :=
  collect_loop TAU (_incoming self) [].

Definition get_num_of_incoming_transistions (self : t) : nat :=
  length (_incoming self).

Definition get_num_of_outgoing_transitions (self : t) : nat :=
  length (_outgoing self).

Definition is_final_state (self : t) : bool :=
  bool_decide (_type self = FINAL).

Definition is_initial_state (self : t) : bool :=
  bool_decide (_type self = INIT).

Definition get_name (self : t) : string := _name self.

End State.

(** ** class Graph *)

Module Graph.

Record t : Type := mk {
  _name : string;
  _states : list State.t
}.

Definition __init__ (name : string) (states : option (list State.t)) : t :=
  mk name (match states with None => [] | Some l => l end).

Definition add_state (state : option State.t) : method t unit := λ self,
  match state with
  | Some st => (Ok (), mk (_name self) (_states self ++ [st]))
  | None => (Ok (), self)
  end.

(** The [for ... break] loop of [get_state]: the first state whose
    [get_name()] is [state_name]. *)
Fixpoint get_state_loop (state_name : string) (states : list State.t)
    : option State.t :=
  match states with
  | [] => None
  | state :: rest =>
      if bool_decide (state_name = State.get_name state)
      then Some state
      else get_state_loop state_name rest
  end.

Definition get_state (self : t) (state_name : string)
    : result (option State.t) :=
  Ok (get_state_loop state_name (_states self)).

Definition get_states_list (self : t) : list State.t := _states self.

End Graph.

(** ** Vocabulary of the properties *)

(** A parameter token matches a name when the name occurs in it. *)
Definition matches (param_name token : string) : Prop :=
  Py.str_in param_name token = true.

#[global] Instance matches_dec param_name token :
  Decision (matches param_name token).
Proof. unfold matches. apply _. Defined.

(** A token has a type field when it contains the separator. *)
Definition has_colon (token : string) : Prop := Py.str_in ":" token = true.

#[global] Instance has_colon_dec token : Decision (has_colon token).
Proof. unfold has_colon. apply _. Defined.

(** The character [c] occurs nowhere in [s]. *)
Fixpoint char_free (c : ascii) (s : string) : Prop :=
  match s with
  | EmptyString => True
  | String c' rest => c' ≠ c ∧ char_free c rest
  end.

(** A parameter of the data model, a pair of a name and a type, and the
    token that encodes it. *)
Definition Param : Type := string * string.

Definition encode (p : Param) : string := p.1 +:+ String ":" p.2.

Definition well_formed (p : Param) : Prop :=
  char_free ":" p.1 ∧ char_free ":" p.2.

(** Duplicates removed in first-seen order: the head stays, and every later
    copy of it goes. *)
Fixpoint dedup_first (l : list string) : list string :=
  match l with
  | [] => []
  | x :: rest => x :: filter (λ y, y ≠ x) (dedup_first rest)
  end.

(** [get_param_type] as the specification words it: the type field of the
    FIRST token, in declaration order, that matches. *)
Definition get_param_type_first_match (self : Transition.t)
    (param_name : string) : option string :=
  match list_find (matches param_name) (Transition.params self) with
  | Some (_, token) => Py.split ":" token !! 1
  | None => None
  end.

(** "Malformed tokens never surface as a raised failure from the
    accessors": both accessors return, whatever the name looked up. *)
Definition accessors_never_raise (self : Transition.t) : Prop :=
  returns (Transition.get_data_types self) ∧
  ∀ param_name, returns (Transition.get_param_type self param_name).

(** One call of [add_outgoing_transition] by a caller that carries on
    after a failure: the receiver before and after. *)
Definition add_outgoing_step (s s' : State.t) : Prop :=
  ∃ transition, (State.add_outgoing_transition transition s).2 = s'.

(** A transition list [l] has [x] as its first element satisfying [P]. *)
Definition first_such {A} (P : A → Prop) (l : list A) (x : A) : Prop :=
  ∃ before after, l = before ++ x :: after ∧ P x ∧ Forall (λ y, ¬ P y) before.

(** The states and transitions of the scenario of the specification. *)
Definition t1 : Transition.t := Transition.mk "t1" RECEPTION "S1" ["x:int"].
Definition t2 : Transition.t := Transition.mk "t2" EMISSION "S2" [].
Definition t3 : Transition.t := Transition.mk "t3" TAU "S0" [].

Definition S0 : State.t := State.mk "S0" INIT [] [t1].
Definition S1 : State.t := State.mk "S1" NORMAL [t1] [t2].
Definition S2 : State.t := State.mk "S2" FINAL [t2] [].
Definition G : Graph.t := Graph.mk "G" [S0; S1; S2].

(** Transitions used as concrete inputs: two tokens that both contain the
    name "len"; a token with no separator; the three tokens of the
    order-preservation example. *)
Definition t_len : Transition.t :=
  Transition.mk "t" EMISSION "s" ["len:int"; "payload_len:str"].
Definition t_bare : Transition.t := Transition.mk "t" EMISSION "s" ["x"].
Definition t_abc : Transition.t :=
  Transition.mk "t" EMISSION "s" ["a:int"; "b:str"; "c:int"].

(** One call of either mutator of [State], with any argument, by a caller
    that carries on after a failure: the receiver before and after. *)
Definition mutator_step (s s' : State.t) : Prop :=
  ∃ transition,
    (State.add_incoming_transition transition s).2 = s' ∨
    (State.add_outgoing_transition transition s).2 = s'.

(** A run of [add_state] calls on one graph, in the order of the list. *)
Definition add_states (states : list (option State.t)) (g : Graph.t)
    : Graph.t :=
  foldl (λ g state, (Graph.add_state state g).2) g states.

(** The names of the states of a graph, in insertion order. *)
Definition state_names (g : Graph.t) : list string :=
  State.get_name <$> Graph.get_states_list g.

(** Further concrete inputs: a token with two separators; a transition
    that shares its name with [t2]; a state with two outgoing transitions
    of one name. *)
Definition t_nested : Transition.t :=
  Transition.mk "t" RECEPTION "s" ["a:b:c"; "d:e"].
Definition t2_again : Transition.t := Transition.mk "t2" RECEPTION "S0" [].

(** A transition with one token that has a type field and one that has
    none. *)
Definition t_mixed : Transition.t :=
  Transition.mk "t" EMISSION "s" ["a:int"; "x"].
Definition S1_twice : State.t := State.mk "S1" NORMAL [t1] [t2; t2_again].

(** [S1] after an incoming [t2] and an outgoing [t3] were added; a FINAL
    state after the same two calls, the second of which fails. *)
Definition S1_grown : State.t :=
  (State.add_outgoing_transition (Some t3)
     (State.add_incoming_transition (Some t2) S1).2).2.
Definition S2_fresh : State.t := State.mk "S2" FINAL [] [].
Definition S2_tried : State.t :=
  (State.add_outgoing_transition (Some t3)
     (State.add_incoming_transition (Some t2) S2_fresh).2).2.

(** * Properties of the Python primitives *)

Section Strings.

#[local] Arguments String.append !_ _ / : simpl nomatch.

Lemma prefix_spec (a b : string) :
  String.prefix a b = true ↔ ∃ rest, b = a +:+ rest.
Proof.
  revert b. induction a as [|c a IH]; intros b; simpl.
  - destruct b; split; eauto.
  - destruct b as [|c' b]; simpl.
    + split; [discriminate | intros [? ?]; discriminate].
    + destruct (ascii_dec c c') as [->|Hne].
      * rewrite IH. split; intros [r Hr]; exists r; simpl in *; congruence.
      * split; [discriminate | intros [r Hr]; simpl in Hr; congruence].
Qed.

(** [str_in] is substring containment. *)
Lemma str_in_spec (a b : string) :
  Py.str_in a b = true ↔ ∃ before after, b = before +:+ a +:+ after.
Proof.
  induction b as [|c b IH]; cbn [Py.str_in].
  - rewrite orb_false_r, prefix_spec. split.
    + intros [r Hr]. exists EmptyString, r. done.
    + intros [[|? ?] [r Hr]]; [eauto | discriminate].
  - rewrite orb_true_iff, prefix_spec, IH. split.
    + intros [[r Hr]|(p & r & Hr)].
      * exists EmptyString, r. done.
      * exists (String c p), r. simpl. congruence.
    + intros ([|c' p] & r & Hr); simpl in Hr.
      * left. eauto.
      * right. exists p, r. congruence.
Qed.

Lemma str_in_empty (b : string) : Py.str_in EmptyString b = true.
Proof. destruct b; reflexivity. Qed.

Lemma str_in_char (c : ascii) (s : string) :
  Py.str_in (String c EmptyString) s = false ↔ char_free c s.
Proof.
  induction s as [|c' s IH]; simpl; [done|].
  destruct (ascii_dec c c') as [->|Hne]; simpl.
  - destruct s; simpl; split; try discriminate; intros [? _]; done.
  - rewrite IH. split; [intros ?; split; [congruence | done] | intros [_ ?]; done].
Qed.

Lemma split_nonempty (sep : ascii) (s : string) : Py.split sep s ≠ [].
Proof.
  induction s as [|c s IH]; simpl; [done|].
  case_decide; [done|]. destruct (Py.split sep s); done.
Qed.

(** Nothing is lost by [split]: joining the pieces gives the string back. *)
Lemma join_split (sep : ascii) (s : string) :
  Py.join sep (Py.split sep s) = s.
Proof.
  induction s as [|c s IH]; simpl; [done|].
  case_decide as Hc.
  - subst c. pose proof (split_nonempty sep s) as Hne.
    destruct (Py.split sep s) as [|p ps] eqn:E; [done|].
    simpl in *. by rewrite IH.
  - pose proof (split_nonempty sep s) as Hne.
    destruct (Py.split sep s) as [|p ps] eqn:E; [done|].
    destruct ps; simpl in *; congruence.
Qed.

(** No piece contains the separator. *)
Lemma split_char_free (sep : ascii) (s : string) :
  Forall (char_free sep) (Py.split sep s).
Proof.
  induction s as [|c s IH]; simpl.
  - by repeat constructor.
  - case_decide.
    + by constructor.
    + destruct (Py.split sep s) as [|p ps].
      * by repeat constructor.
      * inversion_clear IH. constructor; [by split | done].
Qed.

Lemma split_char_free_1 (sep : ascii) (s : string) :
  char_free sep s → Py.split sep s = [s].
Proof.
  induction s as [|c s IH]; simpl; [done|].
  intros [Hc Hs]. rewrite decide_False by done. by rewrite IH.
Qed.

Lemma split_app (sep : ascii) (a b : string) :
  char_free sep a →
  Py.split sep (a +:+ String sep b) = a :: Py.split sep b.
Proof.
  induction a as [|c a IH]; simpl.
  - intros _. by rewrite decide_True.
  - intros [Hc Ha]. rewrite decide_False by done. by rewrite IH.
Qed.

(** A second piece exists exactly when the separator occurs. *)
Lemma split_second (sep : ascii) (s : string) :
  is_Some (Py.split sep s !! 1) ↔ ¬ char_free sep s.
Proof.
  induction s as [|c s IH]; simpl.
  - split; [intros [? ?]; done | tauto].
  - case_decide as Hc.
    + subst c. pose proof (split_nonempty sep s).
      destruct (Py.split sep s) as [|p ps]; [done|]. simpl.
      split; [intros _ [? _]; done | eauto].
    + pose proof (split_nonempty sep s).
      destruct (Py.split sep s) as [|p ps]; [done|]. simpl in *.
      rewrite IH. tauto.
Qed.

End Strings.

(** * Transition *)

Section TransitionFacts.

Lemma has_colon_char_free (token : string) :
  has_colon token ↔ ¬ char_free ":" token.
Proof.
  unfold has_colon. rewrite <- str_in_char.
  destruct (Py.str_in ":" token); split; congruence.
Qed.

(** The subscript is the only thing that can fail in [split(":")[1]]. *)
Lemma split_1_cases (param : string) :
  (has_colon param ∧ ∃ ty, Transition.split_1 param = Ok ty) ∨
  (¬ has_colon param ∧ Transition.split_1 param = Raise IndexError).
Proof.
  unfold Transition.split_1, Py.subscript.
  destruct (decide (has_colon param)) as [H|H]; [left|right]; split; try done.
  - apply has_colon_char_free, split_second in H as [ty ->]. eauto.
  - destruct (Py.split ":" param !! 1) as [ty|] eqn:E; [|done].
    destruct H. apply has_colon_char_free, split_second. eauto.
Qed.

Lemma split_1_returns (param : string) :
  returns (Transition.split_1 param) ↔ has_colon param.
Proof.
  destruct (split_1_cases param) as [[H [ty E]]|[H E]]; rewrite E.
  - split; [done | intros _; by exists ty].
  - split; [intros [? ?]; done | done].
Qed.

Lemma split_1_raises (param : string) :
  raises (Transition.split_1 param) ↔ ¬ has_colon param.
Proof.
  destruct (split_1_cases param) as [[H [ty E]]|[H E]]; rewrite E.
  - split; [intros [? ?]; done | done].
  - split; [done | intros _; by exists IndexError].
Qed.

(** On the token of a well-formed parameter the subscript gives its type. *)
Lemma split_1_encode (p : Param) :
  well_formed p → Transition.split_1 (encode p) = Ok p.2.
Proof.
  intros [Hn Ht]. unfold Transition.split_1, encode.
  rewrite split_app by done. by rewrite (split_char_free_1 _ _ Ht).
Qed.

(** *** The loop of [get_param_type] *)

Lemma get_param_type_loop_no_match p l acc :
  Forall (λ token, ¬ matches p token) l →
  Transition.get_param_type_loop p l acc = Ok acc.
Proof.
  intros H. revert acc. induction H as [|x l Hx _ IH]; intros acc; simpl.
  - done.
  - unfold matches in Hx. destruct (Py.str_in p x); [done | apply IH].
Qed.

Lemma get_param_type_loop_last_match p before token after ty acc :
  Forall (λ x, matches p x → has_colon x) before →
  matches p token →
  Transition.split_1 token = Ok ty →
  Forall (λ x, ¬ matches p x) after →
  Transition.get_param_type_loop p (before ++ token :: after) acc
  = Ok (Some ty).
Proof.
  intros Hb Hm Hty Ha. revert acc.
  induction Hb as [|x before Hx _ IH]; intros acc; simpl.
  - unfold matches in Hm. rewrite Hm, Hty. simpl.
    by apply get_param_type_loop_no_match.
  - destruct (Py.str_in p x) eqn:E; [|apply IH].
    apply split_1_returns in Hx as [tx ->]; [|done]. simpl. apply IH.
Qed.

Lemma get_param_type_loop_raises p l acc :
  raises (Transition.get_param_type_loop p l acc) ↔
  Exists (λ token, matches p token ∧ ¬ has_colon token) l.
Proof.
  revert acc. induction l as [|x l IH]; intros acc; simpl.
  - rewrite Exists_nil. split; [intros [? ?]; done | done].
  - rewrite Exists_cons. unfold matches at 1.
    destruct (Py.str_in p x) eqn:E.
    + destruct (split_1_cases x) as [[H [ty Hty]]|[H Hty]]; rewrite Hty; simpl.
      * rewrite IH. tauto.
      * split; [by left | intros _; by exists IndexError].
    + rewrite IH. split; [by right | intros [[? _]|?]; done].
Qed.

Lemma get_param_type_loop_exn p l acc e :
  Transition.get_param_type_loop p l acc = Raise e → e = IndexError.
Proof.
  revert acc. induction l as [|x l IH]; intros acc; simpl; [done|].
  destruct (Py.str_in p x); [|apply IH].
  destruct (split_1_cases x) as [[_ [ty ->]]|[_ ->]]; simpl;
    [apply IH | congruence].
Qed.

(** *** The loop of [get_data_types] *)

Lemma get_data_types_loop_spec l tys acc :
  Forall2 (λ token ty, Transition.split_1 token = Ok ty) l tys →
  Transition.get_data_types_loop l acc
  = Ok (acc ++ filter (λ y, y ∉ acc) (dedup_first tys)).
Proof.
  intros H. revert acc.
  induction H as [|x ty l tys Hx _ IH]; intros acc; simpl.
  - by rewrite app_nil_r.
  - rewrite Hx. cbn [mbind result_bind].
    destruct (decide (ty ∈ acc)) as [Hin|Hin].
    + rewrite bool_decide_false by tauto.
      rewrite IH. do 2 f_equal.
      rewrite filter_cons_False by (intros Hn; by apply Hn).
      rewrite list_filter_filter. apply list_filter_iff.
      intros y. split; [|tauto]. intros Hy. split; [done|].
      intros ->. by apply Hy.
    + rewrite bool_decide_true by done.
      rewrite IH, <- (assoc_L (++)). simpl.
      rewrite filter_cons_True by done. do 3 f_equal.
      rewrite list_filter_filter. apply list_filter_iff.
      intros y. rewrite not_elem_of_app, list_elem_of_singleton. tauto.
Qed.

Lemma get_data_types_loop_raises l acc :
  raises (Transition.get_data_types_loop l acc) ↔
  Exists (λ token, ¬ has_colon token) l.
Proof.
  revert acc. induction l as [|x l IH]; intros acc; simpl.
  - rewrite Exists_nil. split; [intros [? ?]; done | done].
  - rewrite Exists_cons.
    destruct (split_1_cases x) as [[H [ty Hty]]|[H Hty]]; rewrite Hty; simpl.
    + case_bool_decide; simpl; rewrite IH; tauto.
    + split; [by left | intros _; by exists IndexError].
Qed.

Lemma get_data_types_loop_exn l acc e :
  Transition.get_data_types_loop l acc = Raise e → e = IndexError.
Proof.
  revert acc. induction l as [|x l IH]; intros acc; simpl; [done|].
  destruct (split_1_cases x) as [[_ [ty ->]]|[_ ->]]; simpl; [|congruence].
  case_bool_decide; simpl; apply IH.
Qed.

Lemma filter_Forall_id {A} (P : A → Prop) `{!∀ x, Decision (P x)} l :
  Forall P l → filter P l = l.
Proof.
  induction 1 as [|x l Hx _ IH]; [done|].
  by rewrite filter_cons_True, IH.
Qed.

(** *** What [dedup_first] is *)

Lemma dedup_first_elem_of l x : x ∈ dedup_first l ↔ x ∈ l.
Proof.
  induction l as [|y l IH]; simpl; [done|].
  rewrite !elem_of_cons, list_elem_of_filter, IH.
  destruct (decide (x = y)); tauto.
Qed.

Lemma dedup_first_NoDup l : NoDup (dedup_first l).
Proof.
  induction l as [|y l IH]; simpl; constructor.
  - rewrite list_elem_of_filter. tauto.
  - by apply NoDup_filter.
Qed.

Lemma dedup_first_sublist l : dedup_first l `sublist_of` l.
Proof.
  induction l as [|y l IH]; simpl; [done|].
  apply sublist_skip. etrans; [apply sublist_filter | done].
Qed.

(** Read from the left: an element seen for the first time is appended, a
    repeated one is dropped. *)
Lemma dedup_first_snoc l x :
  dedup_first (l ++ [x])
  = if decide (x ∈ l) then dedup_first l else dedup_first l ++ [x].
Proof.
  induction l as [|y l IH]; simpl; [done|].
  rewrite IH. destruct (decide (x ∈ l)) as [Hin|Hin].
  - rewrite decide_True by (by right). done.
  - destruct (decide (x = y)) as [->|Hne].
    + rewrite decide_True by (by left).
      rewrite filter_app, filter_cons_False, filter_nil, app_nil_r by tauto.
      done.
    + rewrite decide_False by (rewrite elem_of_cons; tauto).
      rewrite filter_app, filter_cons_True, filter_nil by done. done.
Qed.

End TransitionFacts.

Section TransitionClaims.

(** C1, as amended. [get_param_type(param_name)] returns the type field
    (the second ":"-separated piece) of the LAST token, in declaration order,
    that contains [param_name], as long as the matching tokens before it
    contain a ":"; it returns [None] when no token matches, in particular
    when [params] is empty. *)
Theorem get_param_type_last_match (self : Transition.t) (param_name : string) :
  (Forall (λ token, ¬ matches param_name token) (Transition.params self) →
   Transition.get_param_type self param_name = Ok None) ∧
  (Transition.params self = [] →
   Transition.get_param_type self param_name = Ok None) ∧
  (∀ before token after ty,
     Transition.params self = before ++ token :: after →
     Forall (λ x, matches param_name x → has_colon x) before →
     matches param_name token →
     Py.split ":" token !! 1 = Some ty →
     Forall (λ x, ¬ matches param_name x) after →
     Transition.get_param_type self param_name = Ok (Some ty)).
Proof.
  unfold Transition.get_param_type. split_and!.
  - intros H. destruct (Transition.params self); simpl; [done|].
    by apply (get_param_type_loop_no_match _ (_ :: _)).
  - by intros ->.
  - intros before token after ty -> Hb Hm Hty Ha.
    assert (Py.truthy (before ++ token :: after) = true) as ->
      by (by destruct before).
    apply get_param_type_loop_last_match; try done.
    unfold Transition.split_1, Py.subscript. by rewrite Hty.
Qed.

Lemma get_param_type_last_match_witness :
  Transition.get_param_type t_len "len" = Ok (Some "str") ∧
  Transition.get_param_type t_len "id" = Ok None ∧
  Transition.get_param_type t2 "x" = Ok None.
Proof.
  split_and!.
  - apply (proj2 (proj2 (get_param_type_last_match t_len "len"))
             ["len:int"] "payload_len:str" [] "str");
      [reflexivity | | reflexivity | reflexivity | constructor].
    repeat constructor.
  - apply (proj1 (get_param_type_last_match t_len "id")).
    repeat constructor; vm_compute; discriminate.
  - apply (proj1 (proj2 (get_param_type_last_match t2 "x"))). reflexivity.
Defined.

(** C1, as stated, fails: of the two tokens that contain "len" the first has
    type "int", and the method answers "str", the type of the second. *)
Lemma get_param_type_not_first_match :
  get_param_type_first_match t_len "len" = Some "int" ∧
  Transition.get_param_type t_len "len" = Ok (Some "str") ∧
  Transition.get_param_type t_len "len"
  ≠ Ok (get_param_type_first_match t_len "len").
Proof. split_and!; [reflexivity | reflexivity | vm_compute; discriminate]. Qed.

(** C2, as amended. Constructing a transition whose type is not TAU succeeds
    whatever the tokens are and stores them as given. A token without ":"
    is then what makes the accessors raise, and [IndexError] is all they
    raise: [get_data_types] raises exactly when some token has no ":",
    [get_param_type] exactly when some token that contains the name has no
    ":". *)
Theorem accessors_raise_on_colonless_token
    (name : string) (type : TransitionType) (next_state : string)
    (params : list string) :
  type ≠ TAU →
  let self := Transition.mk name type next_state params in
  Transition.__init__ name type next_state params = Ok self ∧
  (raises (Transition.get_data_types self) ↔
   Exists (λ token, ¬ has_colon token) params) ∧
  (∀ param_name,
     raises (Transition.get_param_type self param_name) ↔
     Exists (λ token, matches param_name token ∧ ¬ has_colon token) params) ∧
  (∀ e, Transition.get_data_types self = Raise e → e = IndexError) ∧
  (∀ param_name e,
     Transition.get_param_type self param_name = Raise e → e = IndexError).
Proof.
  intros Hty self. split_and!.
  - unfold Transition.__init__. simpl. by rewrite bool_decide_false.
  - unfold Transition.get_data_types. simpl. destruct params as [|x l].
    + simpl. rewrite Exists_nil. split; [intros [? ?]; done | done].
    + apply (get_data_types_loop_raises (x :: l)).
  - intros p. unfold Transition.get_param_type. simpl.
    destruct params as [|x l].
    + simpl. rewrite Exists_nil. split; [intros [? ?]; done | done].
    + apply (get_param_type_loop_raises p (x :: l)).
  - intros e. unfold Transition.get_data_types.
    destruct (Py.truthy _); [apply get_data_types_loop_exn | done].
  - intros p e. unfold Transition.get_param_type.
    destruct (Py.truthy _); [apply get_param_type_loop_exn | done].
Qed.

Lemma accessors_raise_on_colonless_token_witness :
  Transition.__init__ "t" EMISSION "s" ["x"] = Ok t_bare ∧
  (raises (Transition.get_data_types t_bare) ↔
   Exists (λ token, ¬ has_colon token) ["x"]).
Proof.
  pose proof (accessors_raise_on_colonless_token "t" EMISSION "s" ["x"]) as H.
  destruct H as (H1 & H2 & _); [discriminate|].
  split; [exact H1 | exact H2].
Defined.

(** C2, as stated, fails: the token "x" is accepted by the constructor and
    both accessors raise on it. *)
Lemma colonless_token_raises :
  Transition.__init__ "t" EMISSION "s" ["x"] = Ok t_bare ∧
  Transition.get_data_types t_bare = Raise IndexError ∧
  Transition.get_param_type t_bare "x" = Raise IndexError ∧
  ¬ accessors_never_raise t_bare.
Proof.
  split_and!; [reflexivity..|]. intros [[? H] _]. discriminate H.
Qed.

(** C5. A TAU transition with a non-empty parameter list is refused by the
    constructor, so a TAU transition that was constructed has none. *)
Theorem tau_transition_has_no_params
    (name : string) (type : TransitionType) (next_state : string)
    (params : list string) :
  (params ≠ [] →
   Transition.__init__ name TAU next_state params
   = Raise (Exception "Illegal transition. tau has no parameters list")) ∧
  (∀ self,
     Transition.__init__ name type next_state params = Ok self →
     Transition.type self = TAU →
     Transition.params self = []).
Proof.
  unfold Transition.__init__. simpl. split.
  - intros H. destruct params; done.
  - intros self. destruct type, params; simpl; intros [= <-]; done.
Qed.

Lemma tau_transition_has_no_params_witness :
  Transition.__init__ "t3" TAU "S0" ["x:int"]
  = Raise (Exception "Illegal transition. tau has no parameters list") ∧
  Transition.params t3 = [].
Proof.
  split.
  - apply (proj1 (tau_transition_has_no_params "t3" TAU "S0" ["x:int"])).
    discriminate.
  - apply (proj2 (tau_transition_has_no_params "t3" TAU "S0" []));
      reflexivity.
Defined.

(** C7, as amended. On a transition whose tokens each contain ":", and so
    each have a type field, [get_data_types()] returns the type fields of
    the tokens with duplicates removed in first-seen order; so it does for
    the tokens of well-formed parameters; it returns the empty list when
    [params] is empty, and ["int"; "str"] for "a:int", "b:str", "c:int". *)
Theorem get_data_types_first_seen (self : Transition.t) :
  (∀ tys,
     Forall2 (λ token ty, Py.split ":" token !! 1 = Some ty)
       (Transition.params self) tys →
     Transition.get_data_types self = Ok (dedup_first tys)) ∧
  (∀ ps : list Param,
     Forall well_formed ps →
     Transition.params self = encode <$> ps →
     Transition.get_data_types self = Ok (dedup_first (ps.*2))) ∧
  (Transition.params self = [] → Transition.get_data_types self = Ok []) ∧
  (Transition.params self = ["a:int"; "b:str"; "c:int"] →
   Transition.get_data_types self = Ok ["int"; "str"]) ∧
  (Forall has_colon (Transition.params self) →
   ∃ tys,
     Forall2 (λ token ty, Py.split ":" token !! 1 = Some ty)
       (Transition.params self) tys ∧
     Transition.get_data_types self = Ok (dedup_first tys)).
Proof.
  assert (∀ tys,
     Forall2 (λ token ty, Transition.split_1 token = Ok ty)
       (Transition.params self) tys →
     Transition.get_data_types self = Ok (dedup_first tys)) as Hgen.
  { intros tys H. unfold Transition.get_data_types.
    destruct (Py.truthy _) eqn:E.
    - rewrite (get_data_types_loop_spec _ tys) by done. simpl.
      f_equal. apply filter_Forall_id, Forall_forall. intros y _. apply not_elem_of_nil.
    - destruct (Transition.params self); [|done]. by inversion H. }
  split_and!.
  - intros tys H. apply Hgen. eapply Forall2_impl; [exact H|].
    intros token ty E. unfold Transition.split_1, Py.subscript. by rewrite E.
  - intros ps Hwf E. apply Hgen. rewrite E.
    apply Forall2_fmap. clear E Hgen.
    induction Hwf as [|p ps Hp _ IH]; constructor;
      [by apply split_1_encode | done].
  - intros E. unfold Transition.get_data_types. by rewrite E.
  - intros E. unfold Transition.get_data_types. by rewrite E.
  - intros Hc.
    assert (∀ l, Forall has_colon l →
      ∃ tys, Forall2 (λ token ty, Transition.split_1 token = Ok ty) l tys)
      as Hex.
    { induction 1 as [|x l Hx _ [tys IH]]; [by exists []|].
      apply split_1_returns in Hx as [ty Hty].
      exists (ty :: tys). by constructor. }
    destruct (Hex _ Hc) as [tys H]. exists tys. split; [|by apply Hgen].
    eapply Forall2_impl; [exact H|]. intros token ty.
    unfold Transition.split_1, Py.subscript.
    destruct (Py.split ":" token !! 1); congruence.
Qed.

Lemma get_data_types_first_seen_witness :
  Transition.get_data_types t_abc = Ok ["int"; "str"] ∧
  Transition.get_data_types t_abc = Ok (dedup_first ["int"; "str"; "int"]) ∧
  Transition.get_data_types t2 = Ok [] ∧
  ∃ tys,
    Forall2 (λ token ty, Py.split ":" token !! 1 = Some ty)
      (Transition.params t_abc) tys ∧
    Transition.get_data_types t_abc = Ok (dedup_first tys).
Proof.
  destruct (get_data_types_first_seen t_abc) as (H1 & H2 & _ & H4 & H5).
  split_and!.
  - apply H4. reflexivity.
  - apply (H2 [("a", "int"); ("b", "str"); ("c", "int")]);
      [repeat constructor; discriminate | reflexivity].
  - apply (get_data_types_first_seen t2). reflexivity.
  - apply H5. repeat constructor.
Defined.

(** C7, as stated, fails: the constructor accepts the tokens "a:int" and
    "x", and on them [get_data_types()] returns nothing, it raises. *)
Lemma get_data_types_raises_on_mixed_tokens :
  Transition.__init__ "t" EMISSION "s" ["a:int"; "x"] = Ok t_mixed ∧
  Transition.get_data_types t_mixed = Raise IndexError ∧
  ¬ ∃ tys, Transition.get_data_types t_mixed = Ok tys.
Proof.
  split_and!; [reflexivity | reflexivity |]. intros [tys H]. discriminate H.
Qed.

End TransitionClaims.

(** * State *)

Section StateFacts.

(** The element a [for ... break] search stops at. *)
Lemma first_such_nil {A} (P : A → Prop) x : ¬ first_such P [] x.
Proof. intros (before & after & E & _). by destruct before. Qed.

Lemma first_such_here {A} (P : A → Prop) x l : P x → first_such P (x :: l) x.
Proof. intros H. exists [], l. by repeat split. Qed.

Lemma first_such_cons {A} (P : A → Prop) x y l :
  first_such P (y :: l) x ↔ (P y ∧ x = y) ∨ (¬ P y ∧ first_such P l x).
Proof.
  split.
  - intros ([|z before] & after & E & Hx & Hb); simplify_eq/=.
    + by left.
    + inversion_clear Hb. right. split; [done|]. by exists before, after.
  - intros [[Hy ->]|[Hy (before & after & -> & Hx & Hb)]].
    + by apply first_such_here.
    + exists (y :: before), after. repeat split; [done|]. by constructor.
Qed.

Lemma first_such_unique {A} (P : A → Prop) l x y :
  first_such P l x → first_such P l y → x = y.
Proof.
  induction l as [|z l IH]; [by intros ?%first_such_nil|].
  rewrite !first_such_cons. intros [[? ->]|[? ?]] [[? ->]|[? ?]]; auto; done.
Qed.

Lemma lookup_loop_Some name l tr :
  State.lookup_loop name l = Some tr ↔
  first_such (λ x, Transition.name x = name) l tr.
Proof.
  induction l as [|y l IH]; simpl.
  - split; [done | by intros ?%first_such_nil].
  - rewrite first_such_cons, <- IH. case_bool_decide as E.
    + split; [intros [= ->]; by left | intros [[_ ->]|[? _]]; congruence].
    + split; [right; split; [congruence | done] | intros [[? _]|[_ ?]]; congruence].
Qed.

Lemma lookup_loop_None name l :
  State.lookup_loop name l = None ↔
  Forall (λ x, Transition.name x ≠ name) l.
Proof.
  induction l as [|y l IH]; simpl.
  - split; [constructor | done].
  - rewrite Forall_cons, <- IH. case_bool_decide as E.
    + split; [done | intros [? _]; congruence].
    + split; [split; [congruence | done] | tauto].
Qed.

(** A classification loop is a filter appended to what it started with. *)
Lemma collect_loop_filter type l acc :
  State.collect_loop type l acc
  = acc ++ filter (λ tr, Transition.type tr = type) l.
Proof.
  revert acc. induction l as [|y l IH]; intros acc; simpl.
  - by rewrite app_nil_r.
  - case_bool_decide as E.
    + rewrite IH, filter_cons_True, <- (assoc_L (++)) by done. done.
    + rewrite IH, filter_cons_False by done. done.
Qed.

Lemma filter_by_type_partition (l : list Transition.t) :
  filter (λ tr, Transition.type tr = EMISSION) l ++
  filter (λ tr, Transition.type tr = RECEPTION) l ++
  filter (λ tr, Transition.type tr = TAU) l ≡ₚ l.
Proof.
  induction l as [|y l IH]; [done|].
  destruct (Transition.type y) eqn:E.
  - rewrite (filter_cons_False (λ tr, _ = EMISSION)) by congruence.
    rewrite (filter_cons_False (λ tr, _ = RECEPTION)) by congruence.
    rewrite (filter_cons_True (λ tr, _ = TAU)) by done.
    rewrite (assoc_L (++)), <- Permutation_middle, <- (assoc_L (++)).
    by constructor.
  - rewrite (filter_cons_True (λ tr, _ = EMISSION)) by done.
    rewrite (filter_cons_False (λ tr, _ = RECEPTION)) by congruence.
    rewrite (filter_cons_False (λ tr, _ = TAU)) by congruence.
    simpl. by constructor.
  - rewrite (filter_cons_False (λ tr, _ = EMISSION)) by congruence.
    rewrite (filter_cons_True (λ tr, _ = RECEPTION)) by done.
    rewrite (filter_cons_False (λ tr, _ = TAU)) by congruence.
    simpl. rewrite <- Permutation_middle. by constructor.
Qed.

(** A FINAL state is a fixed point of [add_outgoing_transition]. *)
Lemma add_outgoing_step_final s s' :
  State._type s = FINAL → add_outgoing_step s s' → s' = s.
Proof.
  intros Hf [[tr|] <-]; unfold State.add_outgoing_transition; [|done].
  by rewrite bool_decide_true.
Qed.

Lemma add_outgoing_steps_final s s' :
  State._type s = FINAL → rtc add_outgoing_step s s' → s' = s.
Proof.
  intros Hf H. induction H as [|s1 s2 s3 H12 _ IH]; [done|].
  apply add_outgoing_step_final in H12 as ->; auto.
Qed.

End StateFacts.

Section StateClaims.

(** C3. The emission, reception and tau lists of a state's outgoing
    transitions share no transition, each keeps the order of the outgoing
    list, and together they hold every outgoing transition as often as the
    outgoing list does. *)
Theorem outgoing_classification_partition (self : State.t) :
  let emission := State.get_outgoing_emission_list self in
  let reception := State.get_outgoing_reception_list self in
  let tau := State.get_outgoing_tau_list self in
  let outgoing := State.get_outgoing_transitions_list self in
  (∀ tr, ¬ (tr ∈ emission ∧ tr ∈ reception)) ∧
  (∀ tr, ¬ (tr ∈ emission ∧ tr ∈ tau)) ∧
  (∀ tr, ¬ (tr ∈ reception ∧ tr ∈ tau)) ∧
  emission `sublist_of` outgoing ∧
  reception `sublist_of` outgoing ∧
  tau `sublist_of` outgoing ∧
  emission ++ reception ++ tau ≡ₚ outgoing.
Proof.
  unfold State.get_outgoing_emission_list, State.get_outgoing_reception_list,
    State.get_outgoing_tau_list, State.get_outgoing_transitions_list.
  rewrite !collect_loop_filter. simpl. split_and!.
  - intros tr. rewrite !list_elem_of_filter. intros [[? _] [? _]]. congruence.
  - intros tr. rewrite !list_elem_of_filter. intros [[? _] [? _]]. congruence.
  - intros tr. rewrite !list_elem_of_filter. intros [[? _] [? _]]. congruence.
  - apply sublist_filter.
  - apply sublist_filter.
  - apply sublist_filter.
  - apply filter_by_type_partition.
Qed.

(** C4. A FINAL state refuses every present transition offered to
    [add_outgoing_transition] with the exception of the constructor-time
    check and is left as it was; so a FINAL state, which the constructor
    only lets through with an empty outgoing list, still has an empty
    outgoing list after any number of such calls. *)
Theorem final_state_outgoing_stays_empty (s0 s : State.t) :
  State._type s0 = FINAL →
  (∀ tr,
     State.add_outgoing_transition (Some tr) s0
     = (Raise (Exception "Final state does not have outgoing transition"),
        s0)) ∧
  State.add_outgoing_transition None s0 = (Ok (), s0) ∧
  (rtc add_outgoing_step s0 s → s = s0) ∧
  (∀ name type incoming outgoing,
     State.__init__ name type incoming outgoing = Ok s0 →
     rtc add_outgoing_step s0 s →
     State._outgoing s = []).
Proof.
  intros Hf. split_and!.
  - intros tr. unfold State.add_outgoing_transition.
    by rewrite bool_decide_true.
  - done.
  - by apply add_outgoing_steps_final.
  - intros name type incoming outgoing Hinit Hsteps.
    apply add_outgoing_steps_final in Hsteps as ->; [|done].
    unfold State.__init__ in Hinit. simpl in Hinit.
    destruct (bool_decide (type = INIT) && _); [done|].
    destruct (bool_decide (type = FINAL)) eqn:Ht; simpl in Hinit.
    + case_bool_decide as Ho; simplify_eq/=. done.
    + by simplify_eq/=.
Qed.

Lemma final_state_outgoing_stays_empty_witness :
  State.add_outgoing_transition (Some t3) S2
  = (Raise (Exception "Final state does not have outgoing transition"), S2) ∧
  State._outgoing
    (State.add_outgoing_transition (Some t3)
       (State.add_outgoing_transition (Some t2) S2).2).2 = [].
Proof.
  split.
  - apply (final_state_outgoing_stays_empty S2 S2). reflexivity.
  - apply (final_state_outgoing_stays_empty S2 _ eq_refl)
      with (name := "S2") (type := FINAL) (incoming := Some [t2])
           (outgoing := None); [reflexivity|].
    eapply rtc_l; [by exists (Some t2)|].
    eapply rtc_l; [by exists (Some t3)|]. reflexivity.
Defined.

(** C6. The constructor of [State] refuses a non-empty incoming list for an
    INIT state and a non-empty outgoing list for a FINAL state; it refuses
    nothing else, and with both lists empty or left out it builds a state of
    any type. *)
Theorem state_init_role_checks
    (name : string) (type : StateType)
    (incoming outgoing : option (list Transition.t)) :
  (∀ l, l ≠ [] →
     State.__init__ name INIT (Some l) outgoing
     = Raise (Exception "Initial state does not have incoming transition")) ∧
  (∀ l, l ≠ [] →
     State.__init__ name FINAL incoming (Some l)
     = Raise (Exception "Final state does not have outgoing transition")) ∧
  (incoming ∈ [None; Some []] → outgoing ∈ [None; Some []] →
     State.__init__ name type incoming outgoing
     = Ok (State.mk name type [] [])) ∧
  (raises (State.__init__ name type incoming outgoing) →
     (type = INIT ∧ ∃ l, incoming = Some l ∧ l ≠ []) ∨
     (type = FINAL ∧ ∃ l, outgoing = Some l ∧ l ≠ [])).
Proof.
  unfold State.__init__. simpl. split_and!.
  - intros l Hl. by rewrite bool_decide_true.
  - intros l Hl. by rewrite bool_decide_true.
  - intros Hi Ho.
    assert (match incoming with Some l => l | None => [] end = []) as ->.
    { set_unfold. by destruct Hi as [->|[->|[]]]. }
    assert (match outgoing with Some l => l | None => [] end = []) as ->.
    { set_unfold. by destruct Ho as [->|[->|[]]]. }
    by destruct type.
  - intros [e He].
    destruct (bool_decide (type = INIT)) eqn:Ht; simpl in He.
    + apply bool_decide_eq_true in Ht. case_bool_decide as Hl.
      * left. split; [done|]. destruct incoming as [l|]; [eauto | done].
      * subst type. done.
    + destruct (bool_decide (type = FINAL)) eqn:Ht'; simpl in He; [|done].
      apply bool_decide_eq_true in Ht'. case_bool_decide as Hl; [|done].
      right. split; [done|]. destruct outgoing as [l|]; [eauto | done].
Qed.

Lemma state_init_role_checks_witness :
  State.__init__ "S0" INIT (Some [t1]) None
  = Raise (Exception "Initial state does not have incoming transition") ∧
  State.__init__ "S2" FINAL None (Some [t3])
  = Raise (Exception "Final state does not have outgoing transition") ∧
  State.__init__ "S1" NORMAL None (Some [])
  = Ok (State.mk "S1" NORMAL [] []).
Proof.
  split_and!.
  - apply (state_init_role_checks "S0" INIT None None). discriminate.
  - apply (state_init_role_checks "S2" FINAL None None). discriminate.
  - apply (state_init_role_checks "S1" NORMAL None (Some []));
      repeat constructor.
Defined.

(** C8. Both lookups by name return without raising. On an INIT state the
    incoming lookup returns [None] and on a FINAL state the outgoing lookup
    returns [None], whatever the lists hold; otherwise the result is the
    first transition of the list whose name is the argument, and [None]
    exactly when no transition of the list has that name. *)
Theorem transition_lookup_first_match (self : State.t) (name : string) :
  ∃ inc out,
    State.get_incoming_transtition self name = Ok inc ∧
    State.get_outgoing_transtition self name = Ok out ∧
    (State._type self = INIT → inc = None) ∧
    (State._type self = FINAL → out = None) ∧
    (State._type self ≠ INIT →
       (∀ tr, inc = Some tr ↔
              first_such (λ x, Transition.name x = name)
                (State._incoming self) tr) ∧
       (inc = None ↔
        Forall (λ x, Transition.name x ≠ name) (State._incoming self))) ∧
    (State._type self ≠ FINAL →
       (∀ tr, out = Some tr ↔
              first_such (λ x, Transition.name x = name)
                (State._outgoing self) tr) ∧
       (out = None ↔
        Forall (λ x, Transition.name x ≠ name) (State._outgoing self))).
Proof.
  unfold State.get_incoming_transtition, State.get_outgoing_transtition.
  exists (if bool_decide (State._type self ≠ INIT)
          then State.lookup_loop name (State._incoming self) else None),
         (if bool_decide (State._type self ≠ FINAL)
          then State.lookup_loop name (State._outgoing self) else None).
  split_and!.
  - by case_bool_decide.
  - by case_bool_decide.
  - intros E. rewrite bool_decide_false; [done | by intros []].
  - intros E. rewrite bool_decide_false; [done | by intros []].
  - intros E. rewrite bool_decide_true by done. split.
    + intros tr. apply lookup_loop_Some.
    + apply lookup_loop_None.
  - intros E. rewrite bool_decide_true by done. split.
    + intros tr. apply lookup_loop_Some.
    + apply lookup_loop_None.
Qed.

Lemma transition_lookup_first_match_witness :
  State.get_outgoing_transtition S1 "t2" = Ok (Some t2) ∧
  State.get_incoming_transtition S1 "t2" = Ok None ∧
  State.get_outgoing_transtition S0 "t1" = Ok (Some t1) ∧
  State.get_incoming_transtition
    (State.mk "S0" INIT [t1] []) "t1" = Ok None ∧
  State.get_outgoing_transtition
    (State.mk "S2" FINAL [] [t2]) "t2" = Ok None.
Proof.
  split_and!.
  - destruct (transition_lookup_first_match S1 "t2")
      as (inc & out & _ & -> & _ & _ & _ & H).
    f_equal. apply H; [discriminate|]. by apply first_such_here.
  - destruct (transition_lookup_first_match S1 "t2")
      as (inc & out & -> & _ & _ & _ & H & _).
    f_equal. apply H; [discriminate|]. repeat constructor. discriminate.
  - destruct (transition_lookup_first_match S0 "t1")
      as (inc & out & _ & -> & _ & _ & _ & H).
    f_equal. apply H; [discriminate|]. by apply first_such_here.
  - destruct (transition_lookup_first_match (State.mk "S0" INIT [t1] []) "t1")
      as (inc & out & -> & _ & H & _).
    f_equal. by apply H.
  - destruct (transition_lookup_first_match (State.mk "S2" FINAL [] [t2]) "t2")
      as (inc & out & _ & -> & _ & H & _).
    f_equal. by apply H.
Defined.

(** C10. On an INIT state [add_incoming_transition] accepts a present
    transition: the call returns, the transition is at the end of the
    incoming list and the count of incoming transitions is one more; but the
    lookup by name on that state still returns [None] for every name. *)
Theorem initial_state_incoming_counted_not_found
    (self : State.t) (tr : Transition.t) :
  State._type self = INIT →
  ∃ self',
    State.add_incoming_transition (Some tr) self = (Ok (), self') ∧
    State.get_incoming_transitions_list self'
    = State.get_incoming_transitions_list self ++ [tr] ∧
    State.get_num_of_incoming_transistions self'
    = State.get_num_of_incoming_transistions self + 1 ∧
    ∀ name, State.get_incoming_transtition self' name = Ok None.
Proof.
  intros E. eexists. split_and!; [reflexivity | reflexivity | |].
  - unfold State.get_num_of_incoming_transistions. simpl.
    by rewrite length_app.
  - intros name. unfold State.get_incoming_transtition. simpl.
    rewrite bool_decide_false; [done | by intros []].
Qed.

Lemma initial_state_incoming_counted_not_found_witness :
  ∃ self',
    State.add_incoming_transition (Some t3) S0 = (Ok (), self') ∧
    State.get_incoming_transitions_list self' = [t3] ∧
    State.get_num_of_incoming_transistions self' = 1 ∧
    ∀ name, State.get_incoming_transtition self' name = Ok None.
Proof.
  exact (initial_state_incoming_counted_not_found S0 t3 eq_refl).
Defined.

End StateClaims.

(** * Graph *)

Section GraphFacts.

Lemma get_state_loop_Some state_name l st :
  Graph.get_state_loop state_name l = Some st ↔
  first_such (λ x, State.get_name x = state_name) l st.
Proof.
  induction l as [|y l IH]; simpl.
  - split; [done | by intros ?%first_such_nil].
  - rewrite first_such_cons, <- IH. case_bool_decide as E.
    + split; [intros [= ->]; by left | intros [[_ ->]|[? _]]; congruence].
    + split; [right; split; [congruence | done] | intros [[? _]|[_ ?]]; congruence].
Qed.

Lemma get_state_loop_None state_name l :
  Graph.get_state_loop state_name l = None ↔
  Forall (λ x, State.get_name x ≠ state_name) l.
Proof.
  induction l as [|y l IH]; simpl.
  - split; [constructor | done].
  - rewrite Forall_cons, <- IH. case_bool_decide as E.
    + split; [done | intros [? _]; congruence].
    + split; [split; [congruence | done] | tauto].
Qed.

(** States added later do not change what an earlier match answers. *)
Lemma get_state_loop_app_Some state_name l l' st :
  Graph.get_state_loop state_name l = Some st →
  Graph.get_state_loop state_name (l ++ l') = Some st.
Proof.
  induction l as [|y l IH]; simpl; [done|]. by case_bool_decide.
Qed.

Lemma get_state_loop_app_None state_name l l' :
  Graph.get_state_loop state_name l = None →
  Graph.get_state_loop state_name (l ++ l')
  = Graph.get_state_loop state_name l'.
Proof.
  induction l as [|y l IH]; simpl; [done|]. by case_bool_decide.
Qed.

End GraphFacts.

Section GraphClaims.

(** C9. [get_state] returns without raising: the first state of the list
    whose name is the argument, and [None] exactly when no state has that
    name. [add_state] appends, so the list is in insertion order, and a
    state added under a name that is already there does not replace the
    earlier one in the lookup. A lookup by name on a [State] that matches
    nothing returns [None] as well. *)
Theorem get_state_first_match (self : Graph.t) (state_name : string) :
  ∃ r,
    Graph.get_state self state_name = Ok r ∧
    (∀ st, r = Some st ↔
           first_such (λ x, State.get_name x = state_name)
             (Graph._states self) st) ∧
    (r = None ↔
     Forall (λ x, State.get_name x ≠ state_name) (Graph._states self)) ∧
    (∀ st',
       Graph.add_state (Some st') self
       = (Ok (), Graph.mk (Graph._name self) (Graph._states self ++ [st']))) ∧
    (∀ st st',
       r = Some st →
       Graph.get_state (Graph.add_state (Some st') self).2 state_name
       = Ok (Some st)) ∧
    (∀ st',
       r = None → State.get_name st' = state_name →
       Graph.get_state (Graph.add_state (Some st') self).2 state_name
       = Ok (Some st')) ∧
    (∀ (s : State.t) name,
       Forall (λ x, Transition.name x ≠ name) (State._incoming s) →
       State.get_incoming_transtition s name = Ok None) ∧
    (∀ (s : State.t) name,
       Forall (λ x, Transition.name x ≠ name) (State._outgoing s) →
       State.get_outgoing_transtition s name = Ok None).
Proof.
  unfold Graph.get_state.
  exists (Graph.get_state_loop state_name (Graph._states self)).
  split_and!.
  - done.
  - intros st. apply get_state_loop_Some.
  - apply get_state_loop_None.
  - done.
  - intros st st' E. simpl. f_equal. by apply get_state_loop_app_Some.
  - intros st' E Hn. simpl. f_equal.
    rewrite get_state_loop_app_None by done. simpl.
    by rewrite bool_decide_true.
  - intros s name H. unfold State.get_incoming_transtition.
    apply lookup_loop_None in H as ->. by case_bool_decide.
  - intros s name H. unfold State.get_outgoing_transtition.
    apply lookup_loop_None in H as ->. by case_bool_decide.
Qed.

Lemma get_state_first_match_witness :
  Graph.get_state G "S1" = Ok (Some S1) ∧
  Graph.get_state G "nonexistent" = Ok None ∧
  Graph.get_state
    (Graph.add_state (Some (State.mk "S1" FINAL [] [])) G).2 "S1"
  = Ok (Some S1) ∧
  State.get_outgoing_transtition S1 "nonexistent" = Ok None.
Proof.
  destruct (get_state_first_match G "S1")
    as (r & E & Hsome & _ & _ & Hadd & _).
  destruct (get_state_first_match G "nonexistent")
    as (r' & E' & _ & Hnone & _ & _ & _ & _ & Hout).
  assert (r = Some S1) as Hr.
  { apply Hsome. exists [S0], [S2]. split_and!; [done..|].
    repeat constructor. discriminate. }
  split_and!.
  - by rewrite E, Hr.
  - rewrite E'. f_equal. apply Hnone. repeat constructor; discriminate.
  - by apply Hadd.
  - apply Hout. repeat constructor. discriminate.
Defined.

End GraphClaims.

(** * Further properties of Transition *)

Section TransitionMoreFacts.

Lemma split_1_char_free token ty :
  Transition.split_1 token = Ok ty → char_free ":" ty.
Proof.
  unfold Transition.split_1, Py.subscript.
  destruct (Py.split ":" token !! 1) as [ty'|] eqn:E; [|done].
  intros [= <-]. pose proof (split_char_free ":" token) as H.
  by eapply Forall_lookup_1 in H.
Qed.

Lemma split_1_lookup token ty :
  Transition.split_1 token = Ok ty ↔ Py.split ":" token !! 1 = Some ty.
Proof.
  unfold Transition.split_1, Py.subscript.
  destruct (Py.split ":" token !! 1); split; congruence.
Qed.

Lemma get_data_types_ok self tys :
  Forall2 (λ token ty, Transition.split_1 token = Ok ty)
    (Transition.params self) tys →
  Transition.get_data_types self = Ok (dedup_first tys).
Proof.
  intros H. unfold Transition.get_data_types.
  destruct (Py.truthy _) eqn:E.
  - rewrite (get_data_types_loop_spec _ tys) by done. simpl.
    f_equal. apply filter_Forall_id, Forall_forall.
    intros y _. apply not_elem_of_nil.
  - destruct (Transition.params self); [|done]. by inversion H.
Qed.

Lemma fields_exist l :
  Forall has_colon l →
  ∃ tys, Forall2 (λ token ty, Transition.split_1 token = Ok ty) l tys.
Proof.
  induction 1 as [|x l Hx _ [tys IH]]; [by exists []|].
  apply split_1_returns in Hx as [ty Hty]. exists (ty :: tys). by constructor.
Qed.

Lemma get_data_types_returns_colons self tys :
  Transition.get_data_types self = Ok tys →
  Forall has_colon (Transition.params self).
Proof.
  intros E. apply Forall_forall. intros token Hin.
  destruct (decide (has_colon token)) as [|Hno]; [done|]. exfalso.
  assert (raises (Transition.get_data_types self)) as [e He]; [|congruence].
  unfold Transition.get_data_types.
  destruct (Transition.params self) as [|x l] eqn:Ep; [by inversion Hin|].
  apply (get_data_types_loop_raises (x :: l)), Exists_exists. eauto.
Qed.

Lemma get_data_types_inv self tys :
  Transition.get_data_types self = Ok tys →
  ∃ fields,
    Forall2 (λ token ty, Transition.split_1 token = Ok ty)
      (Transition.params self) fields ∧
    tys = dedup_first fields.
Proof.
  intros E. destruct (fields_exist (Transition.params self)) as [fields H].
  { by eapply get_data_types_returns_colons. }
  exists fields. split; [done|].
  apply get_data_types_ok in H. congruence.
Qed.

(** What the loop of [get_param_type] can end with: what it started with,
    when nothing matched, or the type field of a matching token. *)
Lemma get_param_type_loop_inv p l acc r :
  Transition.get_param_type_loop p l acc = Ok r →
  (r = acc ∧ Forall (λ token, ¬ matches p token) l) ∨
  (∃ token ty,
     token ∈ l ∧ matches p token ∧
     Transition.split_1 token = Ok ty ∧ r = Some ty).
Proof.
  revert acc. induction l as [|x l IH]; intros acc; simpl.
  - intros [= <-]. left. by split.
  - destruct (Py.str_in p x) eqn:E.
    + destruct (Transition.split_1 x) as [ty|e] eqn:Ex; simpl; [|done].
      intros [[-> Hl]|(token & ty' & Hin & Hm & Ht & ->)]%IH; right.
      * exists x, ty. split_and!; [by left | done..].
      * exists token, ty'. split_and!; [by right | done..].
    + intros [[-> Hl]|(token & ty' & Hin & Hm & Ht & ->)]%IH.
      * left. split; [done|]. constructor; [|done].
        unfold matches. congruence.
      * right. exists token, ty'. split_and!; [by right | done..].
Qed.

Lemma get_param_type_inv self p r :
  Transition.get_param_type self p = Ok r →
  (r = None ∧ Forall (λ token, ¬ matches p token) (Transition.params self)) ∨
  (∃ token ty,
     token ∈ Transition.params self ∧ matches p token ∧
     Transition.split_1 token = Ok ty ∧ r = Some ty).
Proof.
  unfold Transition.get_param_type.
  destruct (Transition.params self) as [|x l]; simpl.
  - intros [= <-]. left. by split.
  - apply (get_param_type_loop_inv p (x :: l)).
Qed.

Lemma filter_singleton_split {A} (P : A → Prop) `{!∀ x, Decision (P x)} l x :
  filter P l = [x] →
  ∃ before after,
    l = before ++ x :: after ∧ P x ∧
    Forall (λ y, ¬ P y) before ∧ Forall (λ y, ¬ P y) after.
Proof.
  induction l as [|y l IH]; [done|].
  rewrite filter_cons. case_decide as Hy.
  - intros [= -> Hl]. exists [], l. split_and!; [done..|].
    apply Forall_forall. intros z Hz Pz.
    assert (z ∈ filter P l) as Hin by (by apply list_elem_of_filter).
    rewrite Hl in Hin. by apply not_elem_of_nil in Hin.
  - intros (before & after & -> & Hx & Hb & Ha)%IH.
    exists (y :: before), after. split_and!; [done..| |done].
    by constructor.
Qed.

End TransitionMoreFacts.

Section TransitionMore.

(** X1. A TAU transition that the constructor let through has no tokens, so
    its two accessors return without raising: no data types, and no type for
    any name. *)
Theorem tau_transition_accessors
    (name next_state : string) (params : list string) (self : Transition.t) :
  Transition.__init__ name TAU next_state params = Ok self →
  self = Transition.mk name TAU next_state [] ∧
  Transition.get_data_types self = Ok [] ∧
  ∀ param_name, Transition.get_param_type self param_name = Ok None.
Proof.
  unfold Transition.__init__. destruct params; simpl; [|done].
  intros [= <-]. done.
Qed.

Lemma tau_transition_accessors_witness :
  t3 = Transition.mk "t3" TAU "S0" [] ∧
  Transition.get_data_types t3 = Ok [] ∧
  ∀ param_name, Transition.get_param_type t3 param_name = Ok None.
Proof. exact (tau_transition_accessors "t3" "S0" [] t3 eq_refl). Defined.

(** X2. A type that an accessor returns never contains ":": of a token with
    several separators only the piece between the first two is used. *)
Theorem returned_types_have_no_colon (self : Transition.t) :
  (∀ tys, Transition.get_data_types self = Ok tys →
          Forall (char_free ":") tys) ∧
  (∀ param_name ty,
     Transition.get_param_type self param_name = Ok (Some ty) →
     char_free ":" ty).
Proof.
  split.
  - intros tys (fields & H & ->)%get_data_types_inv.
    apply Forall_forall. intros ty Hty.
    apply (proj1 (dedup_first_elem_of _ _)) in Hty.
    apply list_elem_of_lookup in Hty as [i Hi].
    destruct (Forall2_lookup_r _ _ _ _ _ H Hi) as (token & _ & Ht).
    by eapply split_1_char_free.
  - intros p ty [[? _]|(token & ty' & _ & _ & Ht & [= ->])]%get_param_type_inv;
      [done|]. by eapply split_1_char_free.
Qed.

Lemma returned_types_have_no_colon_witness :
  Forall (char_free ":") ["b"; "e"] ∧ char_free ":" "b".
Proof.
  split.
  - apply (proj1 (returned_types_have_no_colon t_nested)). reflexivity.
  - apply (proj2 (returned_types_have_no_colon t_nested) "a"). reflexivity.
Defined.

(** X3. When [get_data_types()] returns, its result has no duplicates, is no
    longer than [params], and holds exactly the type fields of the tokens. *)
Theorem get_data_types_result (self : Transition.t) (tys : list string) :
  Transition.get_data_types self = Ok tys →
  NoDup tys ∧
  length tys ≤ length (Transition.params self) ∧
  ∀ ty, ty ∈ tys ↔
        ∃ token, token ∈ Transition.params self ∧
                 Py.split ":" token !! 1 = Some ty.
Proof.
  intros (fields & H & ->)%get_data_types_inv. split_and!.
  - apply dedup_first_NoDup.
  - rewrite (Forall2_length _ _ _ H).
    apply sublist_length, dedup_first_sublist.
  - intros ty. rewrite dedup_first_elem_of. split.
    + intros [i Hi]%list_elem_of_lookup.
      destruct (Forall2_lookup_r _ _ _ _ _ H Hi) as (token & Htok & Ht).
      exists token. split; [by eapply list_elem_of_lookup_2|].
      by apply split_1_lookup.
    + intros (token & [i Hi]%list_elem_of_lookup & Ht).
      destruct (Forall2_lookup_l _ _ _ _ _ H Hi) as (ty' & Hty & Ht').
      apply split_1_lookup in Ht. assert (ty' = ty) as -> by congruence.
      by eapply list_elem_of_lookup_2.
Qed.

Lemma get_data_types_result_witness :
  NoDup ["int"; "str"] ∧
  length ["int"; "str"] ≤ length (Transition.params t_abc) ∧
  ∀ ty, ty ∈ ["int"; "str"] ↔
        ∃ token, token ∈ Transition.params t_abc ∧
                 Py.split ":" token !! 1 = Some ty.
Proof. exact (get_data_types_result t_abc ["int"; "str"] eq_refl). Defined.

(** X4. The two accessors agree: a type that [get_param_type] returns for
    some name is one of the types that [get_data_types()] returns. *)
Theorem get_param_type_in_data_types
    (self : Transition.t) (param_name ty : string) (tys : list string) :
  Transition.get_param_type self param_name = Ok (Some ty) →
  Transition.get_data_types self = Ok tys →
  ty ∈ tys.
Proof.
  intros [[? _]|(token & ty' & Hin & _ & Ht & [= <-])]%get_param_type_inv;
    [done|].
  intros (fields & H & ->)%get_data_types_inv.
  apply dedup_first_elem_of.
  apply list_elem_of_lookup in Hin as [i Hi].
  destruct (Forall2_lookup_l _ _ _ _ _ H Hi) as (field & Hty & Ht').
  assert (field = ty) as -> by congruence. by eapply list_elem_of_lookup_2.
Qed.

Lemma get_param_type_in_data_types_witness : "str" ∈ ["int"; "str"].
Proof.
  exact (get_param_type_in_data_types t_len "len" "str" ["int"; "str"]
           eq_refl eq_refl).
Defined.

(** X5. [get_param_type] returns [None] exactly when no token contains the
    name; and a type it returns is the type field of a token that does. *)
Theorem get_param_type_none_iff (self : Transition.t) (param_name : string) :
  (Transition.get_param_type self param_name = Ok None ↔
   Forall (λ token, ¬ matches param_name token) (Transition.params self)) ∧
  (∀ ty,
     Transition.get_param_type self param_name = Ok (Some ty) →
     ∃ token, token ∈ Transition.params self ∧ matches param_name token ∧
              Py.split ":" token !! 1 = Some ty).
Proof.
  split; [split|].
  - intros [[_ H]|(? & ? & _ & _ & _ & ?)]%get_param_type_inv; done.
  - intros H. unfold Transition.get_param_type.
    destruct (Transition.params self) as [|x l]; [done|].
    by apply (get_param_type_loop_no_match _ (x :: l)).
  - intros ty [[? _]|(token & ty' & Hin & Hm & Ht & [= ->])]%get_param_type_inv;
      [done|].
    exists token. split_and!; [done..|]. by apply split_1_lookup.
Qed.

(** X6. When exactly one token contains the name, [get_param_type] returns
    the type field of that token, wherever it stands in [params]; for the
    token of a well-formed parameter that is the parameter's type. *)
Theorem get_param_type_unique_match
    (self : Transition.t) (param_name token : string) :
  filter (matches param_name) (Transition.params self) = [token] →
  (∀ ty, Py.split ":" token !! 1 = Some ty →
         Transition.get_param_type self param_name = Ok (Some ty)) ∧
  (∀ p : Param, well_formed p → token = encode p →
         Transition.get_param_type self param_name = Ok (Some p.2)).
Proof.
  intros (before & after & E & Hm & Hb & Ha)%filter_singleton_split.
  assert (∀ ty, Transition.split_1 token = Ok ty →
    Transition.get_param_type self param_name = Ok (Some ty)) as Hgen.
  { intros ty Hty. unfold Transition.get_param_type. rewrite E.
    assert (Py.truthy (before ++ token :: after) = true) as ->
      by (by destruct before).
    apply get_param_type_loop_last_match; try done.
    eapply Forall_impl; [exact Hb|]. by intros x Hx Hx'. }
  split.
  - intros ty Hty. by apply Hgen, split_1_lookup.
  - intros p Hp ->. by apply Hgen, split_1_encode.
Qed.

Lemma get_param_type_unique_match_witness :
  Transition.get_param_type t_abc "b" = Ok (Some "str") ∧
  Transition.get_param_type t_abc "c:" = Ok (Some "int").
Proof.
  split.
  - apply (proj1 (get_param_type_unique_match t_abc "b" "b:str" eq_refl)).
    reflexivity.
  - apply (proj2 (get_param_type_unique_match t_abc "c:" "c:int" eq_refl)
             ("c", "int")); [repeat constructor; discriminate | reflexivity].
Defined.

(** X7. The empty name occurs in every token: when every token has a type
    field, [get_param_type("")] returns the type field of the last token. *)
Theorem get_param_type_empty_name
    (self : Transition.t) (before : list string) (token : string) :
  Transition.params self = before ++ [token] →
  Forall has_colon (Transition.params self) →
  ∃ ty, Py.split ":" token !! 1 = Some ty ∧
        Transition.get_param_type self "" = Ok (Some ty).
Proof.
  intros E H. rewrite E in H. apply Forall_app in H as [Hb Ht].
  apply Forall_singleton, split_1_returns in Ht as [ty Hty].
  exists ty. split; [by apply split_1_lookup|].
  unfold Transition.get_param_type. rewrite E.
  assert (Py.truthy (before ++ [token]) = true) as -> by (by destruct before).
  apply get_param_type_loop_last_match; try done.
  - eapply Forall_impl; [exact Hb|]. by intros x Hx _.
  - apply str_in_empty.
Qed.

Lemma get_param_type_empty_name_witness :
  ∃ ty, Py.split ":" "c:int" !! 1 = Some ty ∧
        Transition.get_param_type t_abc "" = Ok (Some ty).
Proof.
  apply (get_param_type_empty_name t_abc ["a:int"; "b:str"] "c:int");
    [reflexivity | repeat constructor].
Defined.

End TransitionMore.

Section TransitionMoreWitness.

Lemma get_param_type_none_iff_witness :
  Transition.get_param_type t_abc "zz" = Ok None ∧
  ∃ token, token ∈ Transition.params t_abc ∧ matches "b" token ∧
           Py.split ":" token !! 1 = Some "str".
Proof.
  split.
  - apply (proj1 (get_param_type_none_iff t_abc "zz")).
    repeat constructor; vm_compute; discriminate.
  - apply (proj2 (get_param_type_none_iff t_abc "b")). reflexivity.
Defined.

End TransitionMoreWitness.

(** * Further properties of State *)

Section StateMoreFacts.

Lemma lookup_loop_app name l l' :
  State.lookup_loop name (l ++ l')
  = match State.lookup_loop name l with
    | Some tr => Some tr
    | None => State.lookup_loop name l'
    end.
Proof. induction l as [|y l IH]; simpl; [done|]. by case_bool_decide. Qed.

Lemma lookup_loop_prefix name l l' tr :
  l `prefix_of` l' →
  State.lookup_loop name l = Some tr → State.lookup_loop name l' = Some tr.
Proof. intros [k ->] E. by rewrite lookup_loop_app, E. Qed.

Lemma lookup_loop_elem name l tr :
  State.lookup_loop name l = Some tr → tr ∈ l ∧ Transition.name tr = name.
Proof.
  intros (before & after & -> & Hn & _)%lookup_loop_Some.
  split; [|done]. apply elem_of_app. right. by left.
Qed.

Lemma collect_loop_nil type l :
  State.collect_loop type l [] = filter (λ tr, Transition.type tr = type) l.
Proof. by rewrite collect_loop_filter. Qed.

(** What one call of a mutator can change. *)
Lemma mutator_step_frame s s' :
  mutator_step s s' →
  State._name s' = State._name s ∧
  State._type s' = State._type s ∧
  State._incoming s `prefix_of` State._incoming s' ∧
  State._outgoing s `prefix_of` State._outgoing s'.
Proof.
  intros [[tr|] [<-|<-]]; simpl; try done.
  - split_and!; [done..| |done]. by apply prefix_app_r.
  - unfold State.add_outgoing_transition. case_bool_decide; simpl; [done|].
    split_and!; [done..|]. by apply prefix_app_r.
Qed.

Lemma mutator_steps_frame s s' :
  rtc mutator_step s s' →
  State._name s' = State._name s ∧
  State._type s' = State._type s ∧
  State._incoming s `prefix_of` State._incoming s' ∧
  State._outgoing s `prefix_of` State._outgoing s'.
Proof.
  induction 1 as [|s1 s2 s3 H12 _ (IH1 & IH2 & IH3 & IH4)]; [done|].
  apply mutator_step_frame in H12 as (H1 & H2 & H3 & H4).
  split_and!; [congruence | congruence | by etrans | by etrans].
Qed.

Lemma mutator_step_final_outgoing s s' :
  State._type s = FINAL → mutator_step s s' →
  State._outgoing s' = State._outgoing s.
Proof.
  intros Hf [[tr|] [<-|<-]]; simpl; try done.
  unfold State.add_outgoing_transition. by rewrite bool_decide_true.
Qed.

Lemma mutator_steps_final_outgoing s s' :
  State._type s = FINAL → rtc mutator_step s s' →
  State._outgoing s' = State._outgoing s.
Proof.
  intros Hf H. induction H as [|s1 s2 s3 H12 _ IH]; [done|].
  rewrite IH.
  - by apply mutator_step_final_outgoing.
  - apply mutator_step_frame in H12 as (_ & -> & _). done.
Qed.

Lemma state_init_inv name type incoming outgoing s :
  State.__init__ name type incoming outgoing = Ok s →
  s = State.mk name type (default [] incoming) (default [] outgoing) ∧
  (type = INIT → default [] incoming = []) ∧
  (type = FINAL → default [] outgoing = []).
Proof.
  unfold State.__init__. simpl.
  replace (match incoming with Some l => l | None => [] end)
    with (default [] incoming) by (by destruct incoming).
  replace (match outgoing with Some l => l | None => [] end)
    with (default [] outgoing) by (by destruct outgoing).
  destruct type; simpl; repeat case_bool_decide; simpl; try done;
    intros [= <-]; split_and!; done.
Qed.

End StateMoreFacts.

Section StateMore.

(** X8. On a state that is not FINAL, [add_outgoing_transition(t)] returns
    and puts [t] at the end of the outgoing list. The lookup of [t]'s name
    then finds a transition of that name: [t] itself when no earlier
    outgoing transition has the name. Lookups of other names answer as
    before. *)
Theorem add_outgoing_then_lookup (self : State.t) (tr : Transition.t) :
  State._type self ≠ FINAL →
  ∃ self',
    State.add_outgoing_transition (Some tr) self = (Ok (), self') ∧
    State.get_outgoing_transitions_list self'
    = State.get_outgoing_transitions_list self ++ [tr] ∧
    State.get_num_of_outgoing_transitions self'
    = State.get_num_of_outgoing_transitions self + 1 ∧
    (∃ found,
       State.get_outgoing_transtition self' (Transition.name tr)
       = Ok (Some found) ∧
       Transition.name found = Transition.name tr) ∧
    (Forall (λ x, Transition.name x ≠ Transition.name tr)
       (State._outgoing self) →
     State.get_outgoing_transtition self' (Transition.name tr)
     = Ok (Some tr)) ∧
    (∀ name, name ≠ Transition.name tr →
       State.get_outgoing_transtition self' name
       = State.get_outgoing_transtition self name).
Proof.
  intros Hf. unfold State.add_outgoing_transition.
  rewrite bool_decide_false by done. eexists. split; [reflexivity|].
  unfold State.get_outgoing_transitions_list,
    State.get_num_of_outgoing_transitions, State.get_outgoing_transtition.
  simpl. rewrite !bool_decide_true by done. rewrite length_app. simpl.
  split_and!; try done.
  - rewrite lookup_loop_app. simpl. rewrite bool_decide_true by done.
    destruct (State.lookup_loop _ (State._outgoing self)) as [old|] eqn:E.
    + exists old. split; [done|]. by apply lookup_loop_elem in E as [_ ?].
    + by exists tr.
  - intros H. apply lookup_loop_None in H.
    rewrite lookup_loop_app, H. simpl. by rewrite bool_decide_true.
  - intros name Hn. rewrite lookup_loop_app. simpl.
    rewrite bool_decide_false by done. by destruct (State.lookup_loop _ _).
Qed.

Lemma add_outgoing_then_lookup_witness :
  ∃ self',
    State.add_outgoing_transition (Some t3) S1 = (Ok (), self') ∧
    State.get_outgoing_transitions_list self' = [t2; t3] ∧
    State.get_outgoing_transtition self' "t3" = Ok (Some t3).
Proof.
  destruct (add_outgoing_then_lookup S1 t3) as (s' & E & Hl & _ & _ & H & _);
    [discriminate|].
  exists s'. split_and!; [done | done |].
  apply H. repeat constructor. discriminate.
Defined.

(** X9. On a state that is not INIT, [add_incoming_transition(t)] puts [t]
    at the end of the incoming list; the lookup of [t]'s name then finds a
    transition of that name, [t] itself when no earlier incoming transition
    has the name, and lookups of other names answer as before. *)
Theorem add_incoming_then_lookup (self : State.t) (tr : Transition.t) :
  State._type self ≠ INIT →
  ∃ self',
    State.add_incoming_transition (Some tr) self = (Ok (), self') ∧
    State.get_incoming_transitions_list self'
    = State.get_incoming_transitions_list self ++ [tr] ∧
    (∃ found,
       State.get_incoming_transtition self' (Transition.name tr)
       = Ok (Some found) ∧
       Transition.name found = Transition.name tr) ∧
    (Forall (λ x, Transition.name x ≠ Transition.name tr)
       (State._incoming self) →
     State.get_incoming_transtition self' (Transition.name tr)
     = Ok (Some tr)) ∧
    (∀ name, name ≠ Transition.name tr →
       State.get_incoming_transtition self' name
       = State.get_incoming_transtition self name).
Proof.
  intros Hi. eexists. split; [reflexivity|].
  unfold State.get_incoming_transitions_list, State.get_incoming_transtition.
  simpl. rewrite !bool_decide_true by done.
  split_and!; try done.
  - rewrite lookup_loop_app. simpl. rewrite bool_decide_true by done.
    destruct (State.lookup_loop _ (State._incoming self)) as [old|] eqn:E.
    + exists old. split; [done|]. by apply lookup_loop_elem in E as [_ ?].
    + by exists tr.
  - intros H. apply lookup_loop_None in H.
    rewrite lookup_loop_app, H. simpl. by rewrite bool_decide_true.
  - intros name Hn. rewrite lookup_loop_app. simpl.
    rewrite bool_decide_false by done. by destruct (State.lookup_loop _ _).
Qed.

Lemma add_incoming_then_lookup_witness :
  ∃ self',
    State.add_incoming_transition (Some t3) S1 = (Ok (), self') ∧
    State.get_incoming_transitions_list self' = [t1; t3] ∧
    State.get_incoming_transtition self' "t3" = Ok (Some t3).
Proof.
  destruct (add_incoming_then_lookup S1 t3) as (s' & E & Hl & _ & H & _);
    [discriminate|].
  exists s'. split_and!; [done | done |].
  apply H. repeat constructor. discriminate.
Defined.

(** X10. A transition that a lookup returns carries the name asked for and
    is in the list searched, and in the classification list of its type; an
    outgoing lookup finds something only on a state that is not final, an
    incoming lookup only on a state that is not initial. *)
Theorem found_transition_is_listed
    (self : State.t) (name : string) (tr : Transition.t) :
  (State.get_outgoing_transtition self name = Ok (Some tr) →
     Transition.name tr = name ∧
     tr ∈ State.get_outgoing_transitions_list self ∧
     State.is_final_state self = false ∧
     (Transition.type tr = EMISSION →
      tr ∈ State.get_outgoing_emission_list self) ∧
     (Transition.type tr = RECEPTION →
      tr ∈ State.get_outgoing_reception_list self) ∧
     (Transition.type tr = TAU → tr ∈ State.get_outgoing_tau_list self)) ∧
  (State.get_incoming_transtition self name = Ok (Some tr) →
     Transition.name tr = name ∧
     tr ∈ State.get_incoming_transitions_list self ∧
     State.is_initial_state self = false ∧
     (Transition.type tr = TAU → tr ∈ State.get_imcoming_tau_list self)).
Proof.
  unfold State.get_outgoing_transtition, State.get_incoming_transtition,
    State.get_outgoing_emission_list, State.get_outgoing_reception_list,
    State.get_outgoing_tau_list, State.get_imcoming_tau_list,
    State.is_final_state, State.is_initial_state,
    State.get_outgoing_transitions_list, State.get_incoming_transitions_list.
  rewrite !collect_loop_nil. split.
  - case_bool_decide as Hf; [|done]. intros [= [Hin Hn]%lookup_loop_elem].
    split_and!; try done.
    + by apply bool_decide_eq_false.
    + intros Ht. by apply list_elem_of_filter.
    + intros Ht. by apply list_elem_of_filter.
    + intros Ht. by apply list_elem_of_filter.
  - case_bool_decide as Hf; [|done]. intros [= [Hin Hn]%lookup_loop_elem].
    split_and!; try done.
    + by apply bool_decide_eq_false.
    + intros Ht. by apply list_elem_of_filter.
Qed.

Lemma found_transition_is_listed_witness :
  Transition.name t2 = "t2" ∧
  t2 ∈ State.get_outgoing_transitions_list S1_twice ∧
  State.is_final_state S1_twice = false ∧
  (Transition.type t2 = EMISSION →
   t2 ∈ State.get_outgoing_emission_list S1_twice) ∧
  (Transition.type t2 = RECEPTION →
   t2 ∈ State.get_outgoing_reception_list S1_twice) ∧
  (Transition.type t2 = TAU → t2 ∈ State.get_outgoing_tau_list S1_twice).
Proof.
  exact (proj1 (found_transition_is_listed S1_twice "t2" t2) eq_refl).
Defined.

(** X11. [get_imcoming_tau_list()] is the incoming list with the transitions
    that are not TAU taken out: every TAU transition of the incoming list,
    as often as it occurs there and in the order of that list; so no more of
    them than [get_num_of_incoming_transistions()] counts. *)
Theorem incoming_tau_list_filter (self : State.t) :
  State.get_imcoming_tau_list self
  = filter (λ tr, Transition.type tr = TAU)
      (State.get_incoming_transitions_list self) ∧
  (∀ tr, tr ∈ State.get_imcoming_tau_list self ↔
         tr ∈ State.get_incoming_transitions_list self ∧
         Transition.type tr = TAU) ∧
  State.get_imcoming_tau_list self
    `sublist_of` State.get_incoming_transitions_list self ∧
  length (State.get_imcoming_tau_list self)
  ≤ State.get_num_of_incoming_transistions self.
Proof.
  unfold State.get_imcoming_tau_list, State.get_incoming_transitions_list,
    State.get_num_of_incoming_transistions.
  rewrite collect_loop_nil. split_and!.
  - done.
  - intros tr. rewrite list_elem_of_filter. tauto.
  - apply sublist_filter.
  - apply length_filter.
Qed.

(** X12. The sizes of the three classification lists of the outgoing
    transitions add up to [get_num_of_outgoing_transitions()], and a
    transition is in one of them exactly when it is an outgoing transition
    of that type. *)
Theorem outgoing_classification_counts (self : State.t) :
  length (State.get_outgoing_emission_list self)
  + length (State.get_outgoing_reception_list self)
  + length (State.get_outgoing_tau_list self)
  = State.get_num_of_outgoing_transitions self ∧
  (∀ tr, tr ∈ State.get_outgoing_emission_list self ↔
         tr ∈ State.get_outgoing_transitions_list self ∧
         Transition.type tr = EMISSION) ∧
  (∀ tr, tr ∈ State.get_outgoing_reception_list self ↔
         tr ∈ State.get_outgoing_transitions_list self ∧
         Transition.type tr = RECEPTION) ∧
  (∀ tr, tr ∈ State.get_outgoing_tau_list self ↔
         tr ∈ State.get_outgoing_transitions_list self ∧
         Transition.type tr = TAU).
Proof.
  unfold State.get_outgoing_emission_list, State.get_outgoing_reception_list,
    State.get_outgoing_tau_list, State.get_outgoing_transitions_list,
    State.get_num_of_outgoing_transitions.
  rewrite !collect_loop_nil. split_and!.
  - pose proof (Permutation_length
                  (filter_by_type_partition (State._outgoing self))) as H.
    rewrite !length_app in H. lia.
  - intros tr. rewrite list_elem_of_filter. tauto.
  - intros tr. rewrite list_elem_of_filter. tauto.
  - intros tr. rewrite list_elem_of_filter. tauto.
Qed.

End StateMore.

Section StateSequences.

(** X13. A transition added to a state that is not FINAL lands at the end
    of the outgoing classification list of its type and leaves the other two
    as they were; a transition added as incoming lands at the end of the
    incoming tau list when it is a TAU transition, and leaves that list as it
    was when it is not. *)
Theorem mutators_and_classification (self : State.t) (tr : Transition.t) :
  (State._type self ≠ FINAL →
   let self' := (State.add_outgoing_transition (Some tr) self).2 in
   State.get_outgoing_emission_list self'
   = State.get_outgoing_emission_list self
     ++ (if decide (Transition.type tr = EMISSION) then [tr] else []) ∧
   State.get_outgoing_reception_list self'
   = State.get_outgoing_reception_list self
     ++ (if decide (Transition.type tr = RECEPTION) then [tr] else []) ∧
   State.get_outgoing_tau_list self'
   = State.get_outgoing_tau_list self
     ++ (if decide (Transition.type tr = TAU) then [tr] else [])) ∧
  (let self' := (State.add_incoming_transition (Some tr) self).2 in
   State.get_imcoming_tau_list self'
   = State.get_imcoming_tau_list self
     ++ (if decide (Transition.type tr = TAU) then [tr] else [])).
Proof.
  unfold State.get_outgoing_emission_list, State.get_outgoing_reception_list,
    State.get_outgoing_tau_list, State.get_imcoming_tau_list.
  split.
  - intros Hf. unfold State.add_outgoing_transition.
    rewrite bool_decide_false by done. simpl.
    rewrite !collect_loop_nil, !filter_app, !filter_cons, !filter_nil. done.
  - simpl. rewrite !collect_loop_nil, !filter_app, !filter_cons, !filter_nil.
    done.
Qed.

Lemma mutators_and_classification_witness :
  State.get_outgoing_emission_list
    (State.add_outgoing_transition (Some t3) S1).2 = [t2] ∧
  State.get_outgoing_tau_list
    (State.add_outgoing_transition (Some t3) S1).2 = [t3].
Proof.
  destruct (proj1 (mutators_and_classification S1 t3)) as (H1 & _ & H3);
    [discriminate|].
  split; [exact H1 | exact H3].
Defined.

(** X14. Whatever calls of the two mutators a state receives, and whether
    or not some of them fail, its name and its role stay what they were, and
    its two lists only grow at the end: the lists before are prefixes of the
    lists after, and the two counts do not go down. *)
Theorem mutators_append_only (s s' : State.t) :
  rtc mutator_step s s' →
  State.get_name s' = State.get_name s ∧
  State.is_final_state s' = State.is_final_state s ∧
  State.is_initial_state s' = State.is_initial_state s ∧
  State.get_incoming_transitions_list s
    `prefix_of` State.get_incoming_transitions_list s' ∧
  State.get_outgoing_transitions_list s
    `prefix_of` State.get_outgoing_transitions_list s' ∧
  State.get_num_of_incoming_transistions s
  ≤ State.get_num_of_incoming_transistions s' ∧
  State.get_num_of_outgoing_transitions s
  ≤ State.get_num_of_outgoing_transitions s'.
Proof.
  intros (Hn & Ht & Hi & Ho)%mutator_steps_frame.
  unfold State.get_name, State.is_final_state, State.is_initial_state,
    State.get_incoming_transitions_list, State.get_outgoing_transitions_list,
    State.get_num_of_incoming_transistions,
    State.get_num_of_outgoing_transitions.
  rewrite Hn, Ht. split_and!; try done; by apply prefix_length.
Qed.

Lemma mutators_append_only_witness :
  State.get_name S1_grown = "S1" ∧
  State.get_outgoing_transitions_list S1
    `prefix_of` State.get_outgoing_transitions_list S1_grown.
Proof.
  destruct (mutators_append_only S1 S1_grown) as (H1 & _ & _ & _ & H5 & _).
  - eapply rtc_l; [exists (Some t2); by left|].
    eapply rtc_l; [exists (Some t3); by right|]. reflexivity.
  - split; [exact H1 | exact H5].
Defined.

(** X15. A lookup that found a transition keeps finding that same transition
    after any further calls of the mutators: a transition added later under
    the same name never takes its place. *)
Theorem lookup_is_stable
    (s s' : State.t) (name : string) (tr : Transition.t) :
  rtc mutator_step s s' →
  (State.get_outgoing_transtition s name = Ok (Some tr) →
   State.get_outgoing_transtition s' name = Ok (Some tr)) ∧
  (State.get_incoming_transtition s name = Ok (Some tr) →
   State.get_incoming_transtition s' name = Ok (Some tr)).
Proof.
  intros (Hn & Ht & Hi & Ho)%mutator_steps_frame.
  unfold State.get_outgoing_transtition, State.get_incoming_transtition.
  rewrite Ht. split.
  - case_bool_decide; [|done]. intros [= E]. f_equal.
    by eapply lookup_loop_prefix.
  - case_bool_decide; [|done]. intros [= E]. f_equal.
    by eapply lookup_loop_prefix.
Qed.

Lemma lookup_is_stable_witness :
  State.get_outgoing_transtition
    (State.add_outgoing_transition (Some t2_again) S1).2 "t2"
  = Ok (Some t2).
Proof.
  apply (proj1 (lookup_is_stable S1 _ "t2" t2
                  (rtc_once _ _ (ex_intro _ (Some t2_again) (or_intror eq_refl))))).
  reflexivity.
Defined.

(** X16. A FINAL state constructed with its outgoing list left out, so with
    an outgoing list the constructor made itself, never gets an outgoing
    transition, whatever calls of the two mutators follow: its count of
    outgoing transitions stays 0, its three classification lists stay empty
    and every outgoing lookup returns [None]. *)
Theorem final_state_never_has_outgoing
    (name : string) (incoming : option (list Transition.t))
    (s0 s : State.t) :
  State.__init__ name FINAL incoming None = Ok s0 →
  rtc mutator_step s0 s →
  State.is_final_state s = true ∧
  State.get_num_of_outgoing_transitions s = 0 ∧
  State.get_outgoing_transitions_list s = [] ∧
  State.get_outgoing_emission_list s = [] ∧
  State.get_outgoing_reception_list s = [] ∧
  State.get_outgoing_tau_list s = [] ∧
  ∀ name', State.get_outgoing_transtition s name' = Ok None.
Proof.
  intros (-> & _ & Ho)%state_init_inv Hsteps.
  pose proof (mutator_steps_frame _ _ Hsteps) as (_ & Ht & _).
  apply mutator_steps_final_outgoing in Hsteps; [|done].
  clear Ho. simpl in *.
  unfold State.is_final_state, State.get_num_of_outgoing_transitions,
    State.get_outgoing_transitions_list, State.get_outgoing_emission_list,
    State.get_outgoing_reception_list, State.get_outgoing_tau_list,
    State.get_outgoing_transtition.
  rewrite Hsteps, Ht. done.
Qed.

Lemma final_state_never_has_outgoing_witness :
  State.get_num_of_outgoing_transitions S2_tried = 0 ∧
  State.get_incoming_transitions_list S2_tried = [t2].
Proof.
  destruct (final_state_never_has_outgoing "S2" None
              S2_fresh S2_tried eq_refl) as (_ & H & _).
  - eapply rtc_l; [exists (Some t2); by left|].
    eapply rtc_l; [exists (Some t3); by right|]. reflexivity.
  - split; [exact H | reflexivity].
Defined.

(** X17. [add_outgoing_transition(t)] with a present [t] raises exactly when
    [is_final_state()] answers true; [add_incoming_transition] never raises,
    and neither mutator does on [None]. The two role predicates never both
    answer true, and when [is_initial_state()] answers true the incoming
    lookup returns [None] for every name. *)
Theorem role_predicates_guard (self : State.t) (tr : Transition.t) :
  (raises (State.add_outgoing_transition (Some tr) self).1 ↔
   State.is_final_state self = true) ∧
  (State.add_outgoing_transition None self).1 = Ok () ∧
  (∀ transition, (State.add_incoming_transition transition self).1 = Ok ()) ∧
  State.is_final_state self && State.is_initial_state self = false ∧
  (State.is_initial_state self = true →
   ∀ name, State.get_incoming_transtition self name = Ok None) ∧
  (State.is_final_state self = true →
   ∀ name, State.get_outgoing_transtition self name = Ok None).
Proof.
  unfold State.is_final_state, State.is_initial_state,
    State.add_outgoing_transition, State.get_incoming_transtition,
    State.get_outgoing_transtition.
  split_and!.
  - case_bool_decide; simpl.
    + split; [done | intros _; by eexists].
    + split; [intros [? ?]; done | done].
  - done.
  - by intros [?|].
  - by destruct (State._type self).
  - intros E%bool_decide_eq_true name.
    rewrite bool_decide_false; [done | by intros []].
  - intros E%bool_decide_eq_true name.
    rewrite bool_decide_false; [done | by intros []].
Qed.

Lemma role_predicates_guard_witness :
  raises (State.add_outgoing_transition (Some t3) S2).1 ∧
  ∀ name, State.get_incoming_transtition S0 name = Ok None.
Proof.
  split.
  - apply (proj1 (role_predicates_guard S2 t3)). reflexivity.
  - apply (role_predicates_guard S0 t3). reflexivity.
Defined.

(** X18. A state that the constructor returns has the name and role given
    and holds the lists given, empty where one was left out; an initial
    state starts with no incoming and a final state with no outgoing
    transition. *)
Theorem state_init_result
    (name : string) (type : StateType)
    (incoming outgoing : option (list Transition.t)) (self : State.t) :
  State.__init__ name type incoming outgoing = Ok self →
  State.get_name self = name ∧
  State.is_initial_state self = bool_decide (type = INIT) ∧
  State.is_final_state self = bool_decide (type = FINAL) ∧
  State.get_incoming_transitions_list self = default [] incoming ∧
  State.get_outgoing_transitions_list self = default [] outgoing ∧
  (State.is_initial_state self = true →
   State.get_num_of_incoming_transistions self = 0) ∧
  (State.is_final_state self = true →
   State.get_num_of_outgoing_transitions self = 0).
Proof.
  intros (-> & Hi & Ho)%state_init_inv.
  unfold State.get_name, State.is_initial_state, State.is_final_state,
    State.get_incoming_transitions_list, State.get_outgoing_transitions_list,
    State.get_num_of_incoming_transistions,
    State.get_num_of_outgoing_transitions.
  simpl. split_and!; try done.
  - intros E%bool_decide_eq_true. by rewrite Hi.
  - intros E%bool_decide_eq_true. by rewrite Ho.
Qed.

Lemma state_init_result_witness :
  State.get_name S0 = "S0" ∧
  State.get_outgoing_transitions_list S0 = [t1] ∧
  (State.is_initial_state S0 = true →
   State.get_num_of_incoming_transistions S0 = 0).
Proof.
  destruct (state_init_result "S0" INIT None (Some [t1]) S0 eq_refl)
    as (H1 & _ & _ & _ & H5 & H6 & _).
  split_and!; [exact H1 | exact H5 | exact H6].
Defined.

End StateSequences.

(** * Further properties of Graph *)

Section GraphMoreFacts.

Lemma get_state_loop_elem state_name l st :
  Graph.get_state_loop state_name l = Some st →
  st ∈ l ∧ State.get_name st = state_name.
Proof.
  intros (before & after & -> & Hn & _)%get_state_loop_Some.
  split; [|done]. apply elem_of_app. right. by left.
Qed.

Lemma get_state_loop_None_names state_name l :
  Graph.get_state_loop state_name l = None ↔
  state_name ∉ State.get_name <$> l.
Proof.
  rewrite get_state_loop_None, Forall_forall, list_elem_of_fmap. split.
  - intros H (st & -> & Hin). by apply (H st).
  - intros H st Hin E. apply H. by exists st.
Qed.

Lemma get_state_loop_complete l st :
  st ∈ l →
  ∃ st', Graph.get_state_loop (State.get_name st) l = Some st' ∧
         State.get_name st' = State.get_name st.
Proof.
  intros Hin.
  destruct (Graph.get_state_loop (State.get_name st) l) as [st'|] eqn:E.
  - exists st'. split; [done|]. by apply get_state_loop_elem in E as [_ ?].
  - apply get_state_loop_None_names in E. destruct E.
    apply list_elem_of_fmap. by exists st.
Qed.

(** With names that are all different, the state found is the state meant. *)
Lemma get_state_loop_unique l st :
  NoDup (State.get_name <$> l) → st ∈ l →
  Graph.get_state_loop (State.get_name st) l = Some st.
Proof.
  induction l as [|y l IH]; simpl; [by intros _ ?%not_elem_of_nil|].
  rewrite NoDup_cons, elem_of_cons. intros [Hy Hl] [->|Hin].
  - by rewrite bool_decide_true.
  - rewrite bool_decide_false; [by apply IH|].
    intros E. apply Hy, list_elem_of_fmap. by exists st.
Qed.

Lemma add_states_spec states g :
  Graph._name (add_states states g) = Graph._name g ∧
  Graph._states (add_states states g) = Graph._states g ++ omap id states.
Proof.
  unfold add_states. revert g.
  induction states as [|[st|] states IH]; intros g; simpl.
  - by rewrite app_nil_r.
  - destruct (IH (Graph.mk (Graph._name g) (Graph._states g ++ [st])))
      as [-> ->]. simpl. by rewrite <- (assoc_L (++)).
  - apply IH.
Qed.

End GraphMoreFacts.

Section GraphMore.

(** X19. A graph built by the constructor and a run of [add_state] calls
    holds the states it was seeded with followed by the states added, in the
    order of the calls; an absent argument adds nothing. *)
Theorem add_states_in_order
    (name : string) (seeds : option (list State.t))
    (states : list (option State.t)) :
  Graph.get_states_list (add_states states (Graph.__init__ name seeds))
  = default [] seeds ++ omap id states.
Proof.
  unfold Graph.get_states_list.
  rewrite (proj2 (add_states_spec _ _)). simpl. by destruct seeds.
Qed.

(** X20. A state that [get_state] returns is a state of the graph with the
    name asked for; [get_state] returns [None] exactly for the names no
    state of the graph has; so every state of the graph is found under its
    name, or an earlier state of the same name is. *)
Theorem get_state_sound_complete (self : Graph.t) (state_name : string) :
  (∀ st, Graph.get_state self state_name = Ok (Some st) →
         st ∈ Graph.get_states_list self ∧
         State.get_name st = state_name) ∧
  (Graph.get_state self state_name = Ok None ↔
   state_name ∉ state_names self) ∧
  (∀ st, st ∈ Graph.get_states_list self →
         ∃ st', Graph.get_state self (State.get_name st) = Ok (Some st') ∧
                State.get_name st' = State.get_name st).
Proof.
  unfold state_names, Graph.get_state, Graph.get_states_list. split_and!.
  - intros st [= E]. by apply get_state_loop_elem.
  - rewrite <- get_state_loop_None_names. split; congruence.
  - intros st (st' & -> & E)%get_state_loop_complete. by exists st'.
Qed.

Lemma get_state_sound_complete_witness :
  S1 ∈ Graph.get_states_list G ∧ State.get_name S1 = "S1" ∧
  Graph.get_state G "S3" = Ok None.
Proof.
  destruct (get_state_sound_complete G "S1") as (H1 & _).
  destruct (get_state_sound_complete G "S3") as (_ & H2 & _).
  destruct (H1 S1 eq_refl) as [Ha Hb].
  split_and!; [exact Ha | exact Hb |].
  apply H2. unfold state_names. simpl.
  rewrite !elem_of_cons, elem_of_nil.
  intros [E|[E|[E|[]]]]; discriminate E.
Defined.

(** X21. In a graph whose states have names that are all different,
    [get_state(name)] returns a state exactly when that state is in the
    graph under that name. *)
Theorem get_state_unique_names
    (self : Graph.t) (state_name : string) (st : State.t) :
  NoDup (state_names self) →
  Graph.get_state self state_name = Ok (Some st) ↔
  st ∈ Graph.get_states_list self ∧ State.get_name st = state_name.
Proof.
  unfold state_names, Graph.get_state, Graph.get_states_list.
  intros Hnd. split.
  - intros [= E]. by apply get_state_loop_elem.
  - intros [Hin <-]. f_equal. by apply get_state_loop_unique.
Qed.

Lemma get_state_unique_names_witness :
  Graph.get_state G "S2" = Ok (Some S2) ↔
  S2 ∈ Graph.get_states_list G ∧ State.get_name S2 = "S2".
Proof.
  apply (get_state_unique_names G "S2" S2).
  apply (bool_decide_unpack _). reflexivity.
Defined.

(** X22. [add_state] with an absent argument leaves the graph as it is. A
    state that is added goes to the end of the list and does not change what
    [get_state] answers for other names; when its name is new to the graph,
    [get_state] finds it under that name, and names that were all different
    stay so. *)
Theorem add_state_then_get_state (self : Graph.t) (st : State.t) :
  Graph.add_state None self = (Ok (), self) ∧
  ∃ self',
    Graph.add_state (Some st) self = (Ok (), self') ∧
    Graph.get_states_list self' = Graph.get_states_list self ++ [st] ∧
    (∀ state_name, state_name ≠ State.get_name st →
       Graph.get_state self' state_name = Graph.get_state self state_name) ∧
    (State.get_name st ∉ state_names self →
       Graph.get_state self' (State.get_name st) = Ok (Some st) ∧
       (NoDup (state_names self) → NoDup (state_names self'))).
Proof.
  split; [done|]. eexists. split; [reflexivity|].
  unfold state_names, Graph.get_states_list, Graph.get_state. simpl.
  split_and!.
  - done.
  - intros n Hn. f_equal.
    destruct (Graph.get_state_loop n (Graph._states self)) as [st'|] eqn:E.
    + by apply get_state_loop_app_Some.
    + rewrite get_state_loop_app_None by done. simpl.
      by rewrite bool_decide_false.
  - intros Hnew. split.
    + f_equal. apply get_state_loop_None_names in Hnew.
      rewrite get_state_loop_app_None by done. simpl.
      by rewrite bool_decide_true.
    + intros Hnd. unfold Graph.get_states_list. simpl.
      rewrite fmap_app. apply NoDup_app. split_and!; [done| |].
      * intros x Hx. simpl. rewrite list_elem_of_singleton.
        intros ->. by apply Hnew.
      * apply NoDup_singleton.
Qed.

Lemma add_state_then_get_state_witness :
  ∃ self',
    Graph.add_state (Some S1_twice) (Graph.mk "G" [S0]) = (Ok (), self') ∧
    Graph.get_state self' "S1" = Ok (Some S1_twice).
Proof.
  destruct (add_state_then_get_state (Graph.mk "G" [S0]) S1_twice)
    as (_ & g' & E & _ & _ & H).
  exists g'. split; [exact E|].
  apply H. unfold state_names. simpl.
  rewrite !elem_of_cons, elem_of_nil. intros [E'|[]]; discriminate E'.
Defined.

(** X23. A graph loaded from nothing with states whose names are all
    different gives each of them back under its name. *)
Theorem loaded_states_are_found
    (name : string) (states : list State.t) (st : State.t) :
  NoDup (State.get_name <$> states) →
  st ∈ states →
  Graph.get_state
    (add_states (Some <$> states) (Graph.__init__ name None))
    (State.get_name st)
  = Ok (Some st).
Proof.
  intros Hnd Hin. unfold Graph.get_state. f_equal.
  rewrite (proj2 (add_states_spec _ _)). simpl.
  assert (omap id (Some <$> states) = states) as ->.
  { clear. induction states as [|y l IH]; [done|]. simpl. by f_equal. }
  by apply get_state_loop_unique.
Qed.

Lemma loaded_states_are_found_witness :
  Graph.get_state
    (add_states (Some <$> [S0; S1; S2]) (Graph.__init__ "G" None)) "S1"
  = Ok (Some S1).
Proof.
  apply (loaded_states_are_found "G" [S0; S1; S2] S1).
  - apply (bool_decide_unpack _). reflexivity.
  - apply (bool_decide_unpack _). reflexivity.
Defined.

End GraphMore.
